(** * Announcements endpoints of the High School Management System API

    A shallow embedding of [src/backend/routers/announcements.py] and of
    the parts of its collaborators that the handlers rely on:

    - [Bson]: the values the handlers store, with MongoDB's comparison
      order on them;
    - [Mongo]: query filters, update documents and the collection
      operations [find], [sort], [find_one], [insert_one], [update_one]
      and [delete_one];
    - [PyStr], [PyDatetime]: [str.replace], [datetime.isoformat] and
      [datetime.fromisoformat];
    - [PyBson]: [bson.ObjectId] construction from a string and [str];
    - [Announcements]: the five request handlers, in a state and
      exception monad over the two collections;
    - [Spec], [Sample]: the vocabulary the properties are stated in, and
      concrete stores to run the handlers on.

    The properties follow: facts about the order on values and about the
    collection operations, the time strings [isoformat] writes, which
    read back as the instant written and are ordered as the instants are
    ([DatetimeFacts], [ChronoFacts]), the exit paths of each handler, and
    the theorems about listings ([Listing]), about the teacher-only
    operations ([TeacherOnly]) and about string order against chronology
    ([Chronology]); then what no handler does ([Never]), what the
    listings contain ([ListingContent]), the invariant of the store
    ([Invariant]) and how the operations compose ([Composition]). *)

From Stdlib Require Import String Ascii List ZArith Bool Sorted Lia.
From stdpp Require Import base option gmap strings list.

(** ** BSON values and their order *)

Module Bson.

(** The raw bytes of a [bson.ObjectId] (twelve of them when well formed). *)
Definition ObjectId := string.

(** The handlers only ever store strings and object ids; [VNull] is the
    value MongoDB substitutes for a missing field when it compares. *)
Inductive Value :=
  | VNull
  | VStr (s : string)
  | VObjectId (oid : ObjectId).

#[global] Instance Value_eq_dec : EqDecision Value.
Proof. solve_decision. Defined.

(** Position of the value's type in MongoDB's cross-type comparison order
    (Null < String < ObjectId). *)
Definition type_rank (v : Value) : nat :=
  match v with
  | VNull => 0
  | VStr _ => 1
  | VObjectId _ => 2
  end.

Definition compare (v w : Value) : comparison :=
  match v, w with
  | VNull, VNull => Eq
  | VStr s, VStr t => String.compare s t
  | VObjectId a, VObjectId b => String.compare a b
  | _, _ => Nat.compare (type_rank v) (type_rank w)
  end.

Definition leb (v w : Value) : bool :=
  match compare v w with Gt => false | _ => true end.

(** Comparison query operators only match values of the operand's type. *)
Definition same_type (v w : Value) : bool :=
  Nat.eqb (type_rank v) (type_rank w).

End Bson.

(** ** The fragment of MongoDB the handlers use *)

Module Mongo.
Import Bson.

(** A document, and equally a Python [dict] with string keys. *)
Abbreviation Document := (gmap string Value).

(** The value a query sees at key [k]: a missing field reads as null. *)
Definition field (d : Document) (k : string) : Value :=
  default VNull (d !! k).

(** Operator expressions [{"$exists": b}], [{"$lte": v}], [{"$gte": v}]. *)
Inductive Cond :=
  | Exists (b : bool)
  | Lte (v : Value)
  | Gte (v : Value).

(** Query filters: [Field k v] is [{k: v}], [FieldOp k c] is [{k: c}],
    [Or fs] is [{"$or": fs}] and [Dict fs] a dict with the entries [fs]
    ([Dict []] is the empty filter of a bare [find()]). *)
#[warnings="-register-all"]
Inductive Filter :=
  | Field (k : string) (v : Value)
  | FieldOp (k : string) (c : Cond)
  | Or (fs : list Filter)
  | Dict (fs : list Filter).

Definition holds (c : Cond) (d : Document) (k : string) : bool :=
  match c with
  | Exists b => Bool.eqb (bool_decide (is_Some (d !! k))) b
  | Lte v => same_type (field d k) v && leb (field d k) v
  | Gte v => same_type (field d k) v && leb v (field d k)
  end.

Fixpoint matches (f : Filter) (d : Document) : bool :=
  match f with
  | Field k v => bool_decide (field d k = v)
  | FieldOp k c => holds c d k
  | Or fs => existsb (fun f' => matches f' d) fs
  | Dict fs => forallb (fun f' => matches f' d) fs
  end.

(** Update documents [{"$set": {...}}] and [{"$unset": {...}}]. *)
Inductive Update :=
  | Set_ (kvs : list (string * Value))
  | Unset (ks : list string).

Definition apply_update (u : Update) (d : Document) : Document :=
  match u with
  | Set_ kvs => fold_left (fun d' kv => <[kv.1 := kv.2]> d') kvs d
  | Unset ks => fold_left (fun d' k => delete k d') ks d
  end.

Record UpdateResult := { matched_count : nat; modified_count : nat }.
Record DeleteResult := { deleted_count : nat }.
Record InsertOneResult := { inserted_id : Value }.

Section Collection.

Abbreviation Collection := (list Document).

Definition find (f : Filter) (coll : Collection) : list Document :=
  List.filter (matches f) coll.

Definition find_one (f : Filter) (coll : Collection) : option Document :=
  List.find (matches f) coll.

(** [before k direction a b]: [a] may precede [b] in a cursor sorted on
    [k] in the given direction. *)
Definition before (k : string) (direction : Z) (a b : Document) : bool :=
  if (direction <? 0)%Z then leb (field b k) (field a k)
  else leb (field a k) (field b k).

Fixpoint place (k : string) (direction : Z) (a : Document)
    (sorted : list Document) : list Document :=
  match sorted with
  | [] => [a]
  | b :: rest =>
      if before k direction a b then a :: b :: rest
      else b :: place k direction a rest
  end.

(** [cursor.sort(k, direction)], as a stable insertion sort. *)
Fixpoint sort (k : string) (direction : Z) (cursor : list Document)
    : list Document :=
  match cursor with
  | [] => []
  | a :: rest => place k direction a (sort k direction rest)
  end.

(** [insert_one] adds an [_id] to a document that has none ([new_id] is
    the object id the driver generates) and refuses an [_id] that is
    already taken.  It returns the document as the caller's dict is left
    (the driver adds the [_id] in place), the collection and the result;
    [None] stands for [DuplicateKeyError]. *)
Definition insert_one (new_id : ObjectId) (doc : Document) (coll : Collection)
    : option (Document * Collection * InsertOneResult) :=
  let doc' := match doc !! "_id" with
              | Some _ => doc
              | None => <["_id" := VObjectId new_id]> doc
              end in
  if existsb (fun d => bool_decide (field d "_id" = field doc' "_id")) coll
  then None
  else Some (doc', coll ++ [doc'], {| inserted_id := field doc' "_id" |}).

(** [update_one] changes the first document the filter matches;
    [modified_count] is 0 when the update leaves that document as it was. *)
Fixpoint update_one (f : Filter) (u : Update) (coll : Collection)
    : Collection * UpdateResult :=
  match coll with
  | [] => ([], {| matched_count := 0; modified_count := 0 |})
  | d :: rest =>
      if matches f d then
        let d' := apply_update u d in
        (d' :: rest,
         {| matched_count := 1;
            modified_count := if bool_decide (d' = d) then 0 else 1 |})
      else
        let r := update_one f u rest in
        (d :: r.1, r.2)
  end.

Fixpoint delete_one (f : Filter) (coll : Collection)
    : Collection * DeleteResult :=
  match coll with
  | [] => ([], {| deleted_count := 0 |})
  | d :: rest =>
      if matches f d then (rest, {| deleted_count := 1 |})
      else
        let r := delete_one f rest in
        (d :: r.1, r.2)
  end.

(** What the server guarantees of a collection: every document has an
    [_id], and no two documents share one. *)
Definition ids (coll : Collection) : list Value :=
  map (fun d => field d "_id") coll.

Fixpoint distinct (vs : list Value) : bool :=
  match vs with
  | [] => true
  | v :: rest => negb (existsb (fun w => bool_decide (w = v)) rest) && distinct rest
  end.

Definition wf (coll : Collection) : bool :=
  forallb (fun d => bool_decide (is_Some (d !! "_id"))) coll
  && distinct (ids coll).

End Collection.

End Mongo.

(** ** Python strings *)

Module PyStr.

(** [s.replace(old, new)] for a one-character [old]. *)
Fixpoint replace (old : ascii) (new : string) (s : string) : string :=
  match s with
  | EmptyString => ""
  | String c s' =>
      if Ascii.eqb c old then new +:+ replace old new s'
      else String c (replace old new s')
  end.

(** Truth value of an [Optional[str]]: [None] and [""] are false. *)
Definition truthy (o : option string) : bool :=
  match o with
  | Some s => negb (String.eqb s "")
  | None => false
  end.

End PyStr.

(** ** The parts of Python's [datetime] the handlers call *)

Module PyDatetime.

(** A [datetime]; [tzinfo] is the UTC offset in microseconds of an aware
    value and [None] for a naive one (as [utcnow()] returns). *)
Record datetime := {
  year : Z; month : Z; day : Z;
  hour : Z; minute : Z; second : Z; microsecond : Z;
  tzinfo : option Z
}.

Definition digit (n : Z) : ascii := ascii_of_N (Z.to_N (48 + n mod 10)).

(** ["%0<width>d" % n] for [0 <= n < 10^width]. *)
Fixpoint zfill (width : nat) (n : Z) : string :=
  match width with
  | O => ""
  | S w => zfill w (n / 10) +:+ String (digit n) ""
  end.

Definition format_time (hh mm ss us : Z) : string :=
  zfill 2 hh +:+ ":" +:+ zfill 2 mm +:+ ":" +:+ zfill 2 ss
  +:+ (if (us =? 0)%Z then "" else "." +:+ zfill 6 us).

Definition format_offset (off : option Z) : string :=
  match off with
  | None => ""
  | Some o =>
      let a := Z.abs o in
      let hh := (a / 3600000000)%Z in
      let mm := ((a mod 3600000000) / 60000000)%Z in
      let ss := ((a mod 60000000) / 1000000)%Z in
      let us := (a mod 1000000)%Z in
      (if (o <? 0)%Z then "-" else "+") +:+ zfill 2 hh +:+ ":" +:+ zfill 2 mm
      +:+ (if (ss =? 0)%Z && (us =? 0)%Z then ""
           else ":" +:+ zfill 2 ss
                +:+ (if (us =? 0)%Z then "" else "." +:+ zfill 6 us))
  end.

(** [dt.isoformat()]: the fraction is printed only when it is not zero. *)
Definition isoformat (dt : datetime) : string :=
  zfill 4 (year dt) +:+ "-" +:+ zfill 2 (month dt) +:+ "-" +:+ zfill 2 (day dt)
  +:+ "T"
  +:+ format_time (hour dt) (minute dt) (second dt) (microsecond dt)
  +:+ format_offset (tzinfo dt).

(** *** [datetime.fromisoformat]

    The grammar CPython 3.7 to 3.10 documents for it,
    [YYYY-MM-DD[*HH[:MM[:SS[.fff[fff]]]][+HH:MM[:SS[.ffffff]]]]], followed
    by the range checks of the [datetime] constructor; [None] stands for
    [ValueError]. *)

Definition is_digit (c : ascii) : bool :=
  (48 <=? nat_of_ascii c)%nat && (nat_of_ascii c <=? 57)%nat.

Fixpoint parse_digits (n : nat) (acc : Z) (s : string) : option (Z * string) :=
  match n with
  | O => Some (acc, s)
  | S n' =>
      match s with
      | String c s' =>
          if is_digit c
          then parse_digits n' (10 * acc + (Z.of_nat (nat_of_ascii c) - 48)) s'
          else None
      | EmptyString => None
      end
  end.

Definition expect (c : ascii) (s : string) : option string :=
  match s with
  | String c' s' => if Ascii.eqb c c' then Some s' else None
  | EmptyString => None
  end.

Definition parse_isoformat_date (s : string) : option (Z * Z * Z * string) :=
  '(y, s1) ← parse_digits 4 0 s;
  s2 ← expect "-" s1;
  '(m, s3) ← parse_digits 2 0 s2;
  s4 ← expect "-" s3;
  '(d, s5) ← parse_digits 2 0 s4;
  Some (y, m, d, s5).

Definition parse_fraction (s : string) : option Z :=
  if (String.length s =? 3)%nat then
    '(f, _) ← parse_digits 3 0 s; Some (f * 1000)%Z
  else if (String.length s =? 6)%nat then
    '(f, _) ← parse_digits 6 0 s; Some f
  else None.

(** [HH[:MM[:SS[.fff[fff]]]]], the whole of [s]. *)
Definition parse_hh_mm_ss_ff (s : string) : option (Z * Z * Z * Z) :=
  '(hh, s1) ← parse_digits 2 0 s;
  if (String.length s1 =? 0)%nat then Some (hh, 0, 0, 0)%Z else
  s2 ← expect ":" s1;
  '(mm, s3) ← parse_digits 2 0 s2;
  if (String.length s3 =? 0)%nat then Some (hh, mm, 0, 0)%Z else
  s4 ← expect ":" s3;
  '(ss, s5) ← parse_digits 2 0 s4;
  if (String.length s5 =? 0)%nat then Some (hh, mm, ss, 0)%Z else
  s6 ← expect "." s5;
  us ← parse_fraction s6;
  Some (hh, mm, ss, us).

(** Splits a time string at its first ["+"] or ["-"]: the part before it,
    and the sign with the part after it when there is one. *)
Fixpoint split_tz (s : string) : string * option (Z * string) :=
  match s with
  | EmptyString => ("", None)
  | String c s' =>
      if Ascii.eqb c "+" then ("", Some (1%Z, s'))
      else if Ascii.eqb c "-" then ("", Some ((-1)%Z, s'))
      else let r := split_tz s' in (String c r.1, r.2)
  end.

Definition parse_tz (sign : Z) (s : string) : option Z :=
  let n := String.length s in
  if (n =? 5)%nat || (n =? 8)%nat || (n =? 15)%nat then
    '(hh, mm, ss, us) ← parse_hh_mm_ss_ff s;
    let off := (sign * (((hh * 60 + mm) * 60 + ss) * 1000000 + us))%Z in
    if (Z.abs off <? 86400000000)%Z then Some off else None
  else None.

Definition is_leap (y : Z) : bool :=
  ((y mod 4 =? 0) && (negb (y mod 100 =? 0) || (y mod 400 =? 0)))%Z.

Definition days_in_month (y m : Z) : Z :=
  if (m =? 2)%Z then (if is_leap y then 29 else 28)
  else if ((m =? 4) || (m =? 6) || (m =? 9) || (m =? 11))%Z then 30
  else 31.

Definition check_date_args (y m d : Z) : bool :=
  ((1 <=? y) && (y <=? 9999) && (1 <=? m) && (m <=? 12)
   && (1 <=? d) && (d <=? days_in_month y m))%Z.

Definition check_time_args (hh mm ss us : Z) : bool :=
  ((0 <=? hh) && (hh <=? 23) && (0 <=? mm) && (mm <=? 59)
   && (0 <=? ss) && (ss <=? 59) && (0 <=? us) && (us <=? 999999))%Z.

Definition fromisoformat (date_string : string) : option datetime :=
  '(y, m, d, rest) ← parse_isoformat_date date_string;
  '(hh, mm, ss, us, tz) ←
    match rest with
    | EmptyString => Some (0, 0, 0, 0, None)%Z
    | String _sep tstr =>
        let parts := split_tz tstr in
        '(hh, mm, ss, us) ← parse_hh_mm_ss_ff parts.1;
        match parts.2 with
        | None => Some (hh, mm, ss, us, None)
        | Some (sign, tzstr) =>
            off ← parse_tz sign tzstr; Some (hh, mm, ss, us, Some off)
        end
    end;
  if check_date_args y m d && check_time_args hh mm ss us
  then Some {| year := y; month := m; day := d; hour := hh; minute := mm;
               second := ss; microsecond := us; tzinfo := tz |}
  else None.

(** *** The instant a datetime denotes *)

Definition days_before_year (y : Z) : Z :=
  let p := (y - 1)%Z in (p * 365 + p / 4 - p / 100 + p / 400)%Z.

Fixpoint days_before_month_aux (y : Z) (m : nat) : Z :=
  match m with
  | O => 0
  | S m' => (days_before_month_aux y m' + days_in_month y (Z.of_nat m))%Z
  end.

Definition days_before_month (y m : Z) : Z :=
  days_before_month_aux y (Z.to_nat (m - 1)).

Definition toordinal (dt : datetime) : Z :=
  (days_before_year (year dt) + days_before_month (year dt) (month dt) + day dt)%Z.

(** Microseconds from 0001-01-01T00:00:00 UTC; a naive datetime is read as
    UTC, which is what [utcnow()] means by it. *)
Definition instant (dt : datetime) : Z :=
  ((((toordinal dt * 24 + hour dt) * 60 + minute dt) * 60 + second dt) * 1000000
   + microsecond dt - default 0 (tzinfo dt))%Z.

End PyDatetime.

(** ** [bson.ObjectId] *)

Module PyBson.
Import Bson.

(** ASCII whitespace, which [bytes.fromhex] skips between bytes. *)
Definition is_space (c : ascii) : bool :=
  let n := nat_of_ascii c in
  (n =? 32)%nat || ((9 <=? n)%nat && (n <=? 13)%nat).

Definition hex_value (c : ascii) : option N :=
  let n := N_of_ascii c in
  if ((48 <=? n) && (n <=? 57))%N then Some (n - 48)%N
  else if ((97 <=? n) && (n <=? 102))%N then Some (n - 87)%N
  else if ((65 <=? n) && (n <=? 70))%N then Some (n - 55)%N
  else None.

(** [bytes.fromhex(s)]; [None] stands for [ValueError]. *)
Fixpoint fromhex (s : string) : option string :=
  match s with
  | EmptyString => Some ""
  | String c s' =>
      if is_space c then fromhex s'
      else
        match hex_value c, s' with
        | Some hi, String c' s'' =>
            match hex_value c' with
            | Some lo => String (ascii_of_N (16 * hi + lo)) <$> fromhex s''
            | None => None
            end
        | _, _ => None
        end
  end.

(** [ObjectId(oid)] for a [str]: 24 characters that [bytes.fromhex]
    accepts; [None] stands for [InvalidId]. *)
Definition ObjectId_of_str (oid : string) : option ObjectId :=
  if (String.length oid =? 24)%nat then fromhex oid else None.

Definition hex_digit (n : N) : ascii :=
  if (n <? 10)%N then ascii_of_N (48 + n) else ascii_of_N (87 + n).

(** [binascii.hexlify(b).decode()] *)
Fixpoint hexlify (b : string) : string :=
  match b with
  | EmptyString => ""
  | String c b' =>
      let n := N_of_ascii c in
      String (hex_digit (n / 16)) (String (hex_digit (n mod 16)) (hexlify b'))
  end.

(** [str(v)] *)
Definition str (v : Value) : string :=
  match v with
  | VNull => "None"
  | VStr s => s
  | VObjectId oid => hexlify oid
  end.

(** The BSON value of an [Optional[str]]. *)
Definition of_optional (o : option string) : Value :=
  match o with
  | Some s => VStr s
  | None => VNull
  end.

End PyBson.

(** ** The request handlers of [routers/announcements.py] *)

Module Announcements.
Import Bson Mongo PyStr PyDatetime PyBson.

Inductive Exception :=
  | HTTPException (status_code : nat) (detail : string)
  | KeyError (key : string)
  | TypeError
  | DuplicateKeyError.

(** The two collections of [..database]. *)
Record DB := {
  announcements : list Document;
  teachers : list Document
}.

Inductive Handle := announcements_collection | teachers_collection.

Definition get (h : Handle) (db : DB) : list Document :=
  match h with
  | announcements_collection => announcements db
  | teachers_collection => teachers db
  end.

Definition put (h : Handle) (coll : list Document) (db : DB) : DB :=
  match h with
  | announcements_collection =>
      {| announcements := coll; teachers := teachers db |}
  | teachers_collection =>
      {| announcements := announcements db; teachers := coll |}
  end.

(** A handler runs against the database and either returns or raises. *)
Definition M (A : Type) : Type := DB -> (Exception + A) * DB.

Definition ret {A} (a : A) : M A := fun db => (inr a, db).

Definition raise {A} (e : Exception) : M A := fun db => (inl e, db).

Definition bind {A B} (m : M A) (k : A -> M B) : M B :=
  fun db =>
    match m db with
    | (inl e, db') => (inl e, db')
    | (inr a, db') => k a db'
    end.

Notation "'do' x <- m ;; k" := (bind m (fun x => k))
  (at level 10, x name, m at level 99, k at level 200).

Definition find_ (h : Handle) (f : Filter) : M (list Document) :=
  fun db => (inr (find f (get h db)), db).

Definition find_one_ (h : Handle) (f : Filter) : M (option Document) :=
  fun db => (inr (find_one f (get h db)), db).

Definition insert_one_ (h : Handle) (new_id : ObjectId) (doc : Document)
    : M (Document * InsertOneResult) :=
  fun db =>
    match insert_one new_id doc (get h db) with
    | Some (doc', coll, result) => (inr (doc', result), put h coll db)
    | None => (inl DuplicateKeyError, db)
    end.

Definition update_one_ (h : Handle) (f : Filter) (u : Update) : M UpdateResult :=
  fun db => let r := update_one f u (get h db) in (inr r.2, put h r.1 db).

Definition delete_one_ (h : Handle) (f : Filter) : M DeleteResult :=
  fun db => let r := delete_one f (get h db) in (inr r.2, put h r.1 db).

(** [d[k]] *)
Definition getitem (d : Document) (k : string) : M Value :=
  match d !! k with
  | Some v => ret v
  | None => raise (KeyError k)
  end.

(** Truth value of what [find_one] returns: [None] and [{}] are false. *)
Definition found (o : option Document) : bool :=
  match o with
  | Some d => negb (bool_decide (d = ∅))
  | None => false
  end.

(** The loop both listings run over their cursor:
    [announcement["_id"] = str(announcement["_id"])] and
    [announcements.append(announcement)]. *)
Fixpoint for_announcement_in (cursor : list Document)
    (announcements : list Document) : M (list Document) :=
  match cursor with
  | [] => ret announcements
  | announcement :: rest =>
      do id <- getitem announcement "_id" ;;
      for_announcement_in rest
        (announcements ++ [<["_id" := VStr (str id)]> announcement])
  end.

Definition get_active_announcements (utcnow : datetime) : M (list Document) :=
  let current_time := isoformat utcnow in
  let query :=
    Dict [Or [FieldOp "start_date" (Exists false);
              FieldOp "start_date" (Lte (VStr current_time))];
          FieldOp "expiration_date" (Gte (VStr current_time))] in
  do cursor <- find_ announcements_collection query ;;
  for_announcement_in (sort "created_at" (-1) cursor) [].

Definition get_all_announcements (teacher_username : option string)
    : M (list Document) :=
  if negb (truthy teacher_username) then
    raise (HTTPException 401 "Authentication required for this action")
  else
  do teacher <- find_one_ teachers_collection
               (Field "_id" (of_optional teacher_username)) ;;
  if negb (found teacher) then
    raise (HTTPException 401 "Invalid teacher credentials")
  else
  do cursor <- find_ announcements_collection (Dict []) ;;
  for_announcement_in (sort "created_at" (-1) cursor) [].

Section Handlers.

(** [datetime.fromisoformat], [None] standing for [ValueError]. *)
Variable fromisoformat : string -> option datetime.

(** The [try] block that validates the dates; [false] when it raises. *)
Definition dates_parse (expiration_date : string) (start_date : option string)
    : bool :=
  match fromisoformat (replace "Z" "+00:00" expiration_date) with
  | None => false
  | Some _ =>
      if truthy start_date then
        match fromisoformat (replace "Z" "+00:00" (default "" start_date)) with
        | None => false
        | Some _ => true
        end
      else true
  end.

Definition create_announcement (utcnow : datetime) (new_id : ObjectId)
    (message expiration_date : string)
    (start_date teacher_username : option string) : M Document :=
  if negb (truthy teacher_username) then
    raise (HTTPException 401 "Authentication required for this action")
  else
  do teacher <- find_one_ teachers_collection
               (Field "_id" (of_optional teacher_username)) ;;
  if negb (found teacher) then
    raise (HTTPException 401 "Invalid teacher credentials")
  else
  if negb (dates_parse expiration_date start_date) then
    raise (HTTPException 400
             "Invalid date format. Use ISO format (YYYY-MM-DDTHH:MM:SS)")
  else
  let announcement : Document :=
    {[ "message" := VStr message;
       "expiration_date" := VStr expiration_date;
       "created_by" := of_optional teacher_username;
       "created_at" := VStr (isoformat utcnow) ]} in
  let announcement :=
    if truthy start_date
    then <["start_date" := of_optional start_date]> announcement
    else announcement in
  do inserted <- insert_one_ announcements_collection new_id announcement ;;
  let announcement := inserted.1 in
  let result := inserted.2 in
  ret (<["_id" := VStr (str (inserted_id result))]> announcement).

Definition update_announcement
    (announcement_id message expiration_date : string)
    (start_date teacher_username : option string) : M Document :=
  if negb (truthy teacher_username) then
    raise (HTTPException 401 "Authentication required for this action")
  else
  do teacher <- find_one_ teachers_collection
               (Field "_id" (of_optional teacher_username)) ;;
  if negb (found teacher) then
    raise (HTTPException 401 "Invalid teacher credentials")
  else
  match ObjectId_of_str announcement_id with
  | None => raise (HTTPException 400 "Invalid announcement ID format")
  | Some obj_id =>
  do announcement <- find_one_ announcements_collection
                    (Field "_id" (VObjectId obj_id)) ;;
  if negb (found announcement) then
    raise (HTTPException 404 "Announcement not found")
  else
  if negb (dates_parse expiration_date start_date) then
    raise (HTTPException 400
             "Invalid date format. Use ISO format (YYYY-MM-DDTHH:MM:SS)")
  else
  let update_data :=
    [("message", VStr message); ("expiration_date", VStr expiration_date)] in
  do update_data <-
    (if truthy start_date then
       ret (update_data ++ [("start_date", of_optional start_date)])
     else if bool_decide (is_Some (default ∅ announcement !! "start_date")) then
       do _ <- update_one_ announcements_collection
              (Field "_id" (VObjectId obj_id)) (Unset ["start_date"]) ;;
       ret update_data
     else ret update_data) ;;
  do result <- update_one_ announcements_collection
              (Field "_id" (VObjectId obj_id)) (Set_ update_data) ;;
  if (modified_count result =? 0)%nat && (matched_count result =? 0)%nat then
    raise (HTTPException 500 "Failed to update announcement")
  else
  do updated <- find_one_ announcements_collection
               (Field "_id" (VObjectId obj_id)) ;;
  match updated with
  | None => raise TypeError
  | Some updated =>
      do id <- getitem updated "_id" ;;
      ret (<["_id" := VStr (str id)]> updated)
  end
  end.

End Handlers.

Definition delete_announcement (announcement_id : string)
    (teacher_username : option string) : M Document :=
  if negb (truthy teacher_username) then
    raise (HTTPException 401 "Authentication required for this action")
  else
  do teacher <- find_one_ teachers_collection
               (Field "_id" (of_optional teacher_username)) ;;
  if negb (found teacher) then
    raise (HTTPException 401 "Invalid teacher credentials")
  else
  match ObjectId_of_str announcement_id with
  | None => raise (HTTPException 400 "Invalid announcement ID format")
  | Some obj_id =>
  do result <- delete_one_ announcements_collection
              (Field "_id" (VObjectId obj_id)) ;;
  if (deleted_count result =? 0)%nat then
    raise (HTTPException 404 "Announcement not found")
  else
  ret {[ "message" := VStr "Announcement deleted successfully" ]}
  end.

End Announcements.

(** ** Vocabulary of the specification *)

Module Spec.
Import Bson Mongo PyDatetime PyBson Announcements.

(** The record a listing returns for the stored document [d]: [d] with its
    identifier rendered as a string. *)
Definition rendered (d : Document) : Document :=
  <["_id" := VStr (str (field d "_id"))]> d.

(** [start_date] is absent or at most [now], and [expiration_date] is at
    least [now], in the store's order on the stored strings. *)
Definition in_window (now : string) (d : Document) : Prop :=
  (d !! "start_date" = None
   \/ exists s, d !! "start_date" = Some (VStr s) /\ String.leb s now = true)
  /\ exists e, d !! "expiration_date" = Some (VStr e) /\ String.leb now e = true.

(** Descending order of [created_at]. *)
Definition newest_first (l : list Document) : Prop :=
  StronglySorted
    (fun a b => leb (field b "created_at") (field a "created_at") = true) l.

(** The instant a stored timestamp denotes, read the way the handlers
    validate it. *)
Definition instant_of (stamp : string) : option Z :=
  instant <$> fromisoformat (PyStr.replace "Z" "+00:00" stamp).

(** [dt] is a naive datetime whose fields are in range, as [utcnow()]
    returns them. *)
Definition naive_utc (dt : datetime) : bool :=
  check_date_args (year dt) (month dt) (day dt)
  && check_time_args (hour dt) (minute dt) (second dt) (microsecond dt)
  && bool_decide (tzinfo dt = None).

(** [v] is a timestamp in the form [utcnow().isoformat()] writes, and [t]
    is the naive UTC datetime it spells. *)
Definition naive_stamp (v : option Value) (t : datetime) : Prop :=
  naive_utc t = true /\ v = Some (VStr (isoformat t)).

(** Both dates of [d] are written in that form (or [start_date] is
    absent). *)
Definition naive_dates (d : Document) : Prop :=
  (d !! "start_date" = None \/ exists t, naive_stamp (d !! "start_date") t)
  /\ exists t, naive_stamp (d !! "expiration_date") t.

(** [d] is inside its window when its timestamps are read as instants. *)
Definition chronologically_in_window (now : datetime) (d : Document) : Prop :=
  (d !! "start_date" = None
   \/ exists s t, d !! "start_date" = Some (VStr s)
                  /\ instant_of s = Some t /\ (t <= instant now)%Z)
  /\ exists e t, d !! "expiration_date" = Some (VStr e)
                 /\ instant_of e = Some t /\ (instant now <= t)%Z.

Definition missing_credential : Exception :=
  HTTPException 401 "Authentication required for this action".

Definition invalid_credential : Exception :=
  HTTPException 401 "Invalid teacher credentials".

Definition invalid_date : Exception :=
  HTTPException 400 "Invalid date format. Use ISO format (YYYY-MM-DDTHH:MM:SS)".

Definition invalid_id : Exception :=
  HTTPException 400 "Invalid announcement ID format".

Definition not_found : Exception :=
  HTTPException 404 "Announcement not found".

Definition has_id (d : Document) : bool := bool_decide (is_Some (d !! "_id")).

(** The filter of the public listing at the time string [now]. *)
Definition active_query (now : string) : Filter :=
  Dict [Or [FieldOp "start_date" (Exists false);
            FieldOp "start_date" (Lte (VStr now))];
        FieldOp "expiration_date" (Gte (VStr now))].

(** The teacher [u] is on record. *)
Definition known_teacher (u : string) (db : DB) : Prop :=
  u <> "" /\ is_Some (find_one (Field "_id" (VStr u)) (teachers db)).

(** The credential passes both checks of a teacher-only operation. *)
Definition authenticated (teacher_username : option string) (db : DB) : Prop :=
  PyStr.truthy teacher_username = true
  /\ found (find_one (Field "_id" (of_optional teacher_username)) (teachers db))
     = true.

(** The document [create_announcement] builds for the teacher [u]. *)
Definition new_record (utcnow : datetime) (message expiration_date : string)
    (start_date : option string) (u : string) : Document :=
  let base : Document :=
    {[ "message" := VStr message;
       "expiration_date" := VStr expiration_date;
       "created_by" := VStr u;
       "created_at" := VStr (isoformat utcnow) ]} in
  if PyStr.truthy start_date
  then <["start_date" := of_optional start_date]> base
  else base.

(** The record [update_announcement] leaves in place of [old]. *)
Definition updated_record (old : Document) (message expiration_date : string)
    (start_date : option string) : Document :=
  if PyStr.truthy start_date then
    <["start_date" := of_optional start_date]>
      (<["expiration_date" := VStr expiration_date]>
         (<["message" := VStr message]> old))
  else
    <["expiration_date" := VStr expiration_date]>
      (<["message" := VStr message]> (delete "start_date" old)).

(** [coll] with the first document that [f] matches replaced by [d']. *)
Fixpoint replace_first (f : Filter) (d' : Document) (coll : list Document)
    : list Document :=
  match coll with
  | [] => []
  | d :: rest =>
      if matches f d then d' :: rest else d :: replace_first f d' rest
  end.

(** A date string fails the validation of create and update. *)
Definition unparsed (fromisoformat : string -> option datetime)
    (stamp : string) : Prop :=
  fromisoformat (PyStr.replace "Z" "+00:00" stamp) = None.

Definition confirmation : Document :=
  {[ "message" := VStr "Announcement deleted successfully" ]}.

End Spec.

(** ** Sample data *)

Module Sample.
Import Bson Mongo PyDatetime PyBson Announcements.

Definition teacher : Document :=
  {[ "_id" := VStr "mrodriguez"; "display_name" := VStr "Ms. Rodriguez" ]}.

(** 2024-01-01T00:00:00, as [utcnow()] would return it. *)
Definition midnight : datetime :=
  {| year := 2024; month := 1; day := 1; hour := 0; minute := 0; second := 0;
     microsecond := 0; tzinfo := None |}.

(** One second later. *)
Definition just_after : datetime :=
  {| year := 2024; month := 1; day := 1; hour := 0; minute := 0; second := 1;
     microsecond := 0; tzinfo := None |}.

Definition oid_a : ObjectId := "aaaaaaaaaaaa".
Definition oid_b : ObjectId := "bbbbbbbbbbbb".

Definition hex_a : string := "616161616161616161616161".
Definition hex_b : string := "626262626262626262626262".

(** Expires at [midnight] exactly. *)
Definition closing : Document :=
  {[ "_id" := VObjectId oid_a;
     "message" := VStr "Library closes early";
     "expiration_date" := VStr "2024-01-01T00:00:00";
     "created_by" := VStr "mrodriguez";
     "created_at" := VStr "2023-12-20T08:00:00" ]}.

(** Starts in 2023 and runs through 2030. *)
Definition fair : Document :=
  {[ "_id" := VObjectId oid_b;
     "message" := VStr "Science fair";
     "start_date" := VStr "2023-06-01T00:00:00";
     "expiration_date" := VStr "2030-01-01T00:00:00";
     "created_by" := VStr "mrodriguez";
     "created_at" := VStr "2023-12-24T08:00:00" ]}.

(** Expires at 03:00 in a zone five hours ahead of UTC, that is at 22:00
    UTC on the day before [midnight]. *)
Definition abroad : Document :=
  {[ "message" := VStr "Exchange visit";
     "expiration_date" := VStr "2024-01-01T03:00:00+05:00";
     "created_by" := VStr "mrodriguez";
     "created_at" := VStr "2023-12-20T08:00:00" ]}.

Definition december : datetime :=
  {| year := 2023; month := 12; day := 20; hour := 8; minute := 0; second := 0;
     microsecond := 0; tzinfo := None |}.

Definition school_abroad : DB :=
  {| announcements := [<["_id" := VObjectId oid_a]> abroad];
     teachers := [teacher] |}.

(** Expires at [midnight], written with the zone marker. *)
Definition zulu : Document :=
  {[ "_id" := VObjectId oid_a;
     "message" := VStr "Parents' evening";
     "expiration_date" := VStr "2024-01-01T00:00:00Z";
     "created_by" := VStr "mrodriguez";
     "created_at" := VStr "2023-12-20T08:00:00" ]}.

(** Expires at [midnight], written as a date. *)
Definition dateonly : Document :=
  {[ "_id" := VObjectId oid_b;
     "message" := VStr "Term ends";
     "expiration_date" := VStr "2024-01-01";
     "created_by" := VStr "mrodriguez";
     "created_at" := VStr "2023-12-24T08:00:00" ]}.

(** Half a second after [midnight]. *)
Definition half_past : datetime :=
  {| year := 2024; month := 1; day := 1; hour := 0; minute := 0; second := 0;
     microsecond := 500000; tzinfo := None |}.

Definition school_zones : DB :=
  {| announcements := [zulu; dateonly]; teachers := [teacher] |}.

Definition school : DB :=
  {| announcements := [closing; fair]; teachers := [teacher] |}.

Definition empty_school : DB :=
  {| announcements := []; teachers := [teacher] |}.

End Sample.

(** * Properties *)

(** ** Byte-wise order on strings *)

Module StrOrd.

Lemma ascii_compare_refl (a : ascii) : Ascii.compare a a = Eq.
Proof. unfold Ascii.compare. apply N.compare_refl. Qed.

Lemma compare_refl (s : string) : String.compare s s = Eq.
Proof.
  induction s as [|a s IH]; simpl; [reflexivity|].
  now rewrite ascii_compare_refl.
Qed.

Lemma compare_eq (s t : string) : String.compare s t = Eq <-> s = t.
Proof.
  split; [apply String.compare_eq_iff|].
  intros ->. apply compare_refl.
Qed.

Lemma ascii_compare_lt_trans (a b c : ascii) :
  Ascii.compare a b = Lt -> Ascii.compare b c = Lt -> Ascii.compare a c = Lt.
Proof.
  unfold Ascii.compare. rewrite !N.compare_lt_iff. lia.
Qed.

Lemma compare_lt_trans (s t u : string) :
  String.compare s t = Lt -> String.compare t u = Lt -> String.compare s u = Lt.
Proof.
  revert t u. induction s as [|a s IH]; intros [|b t] [|c u]; simpl;
    try discriminate; try reflexivity.
  destruct (Ascii.compare a b) eqn:Hab; try discriminate.
  - apply Ascii.compare_eq_iff in Hab. subst b.
    destruct (Ascii.compare a c); try discriminate; [apply IH|reflexivity].
  - intros _. destruct (Ascii.compare b c) eqn:Hbc; try discriminate.
    + apply Ascii.compare_eq_iff in Hbc. subst c. now rewrite Hab.
    + now rewrite (ascii_compare_lt_trans a b c).
Qed.

Lemma leb_refl (s : string) : String.leb s s = true.
Proof. unfold String.leb. now rewrite compare_refl. Qed.

Lemma leb_iff (s t : string) :
  String.leb s t = true <-> String.compare s t = Lt \/ s = t.
Proof.
  unfold String.leb. rewrite <- compare_eq.
  destruct (String.compare s t); intuition discriminate.
Qed.

Lemma leb_trans (s t u : string) :
  String.leb s t = true -> String.leb t u = true -> String.leb s u = true.
Proof.
  rewrite !leb_iff. intros [Hst| ->] [Htu| ->]; auto.
  left. eapply compare_lt_trans; eassumption.
Qed.

Lemma ltb_leb_false (s t : string) :
  String.ltb s t = true <-> String.leb t s = false.
Proof.
  unfold String.ltb, String.leb. rewrite (String.compare_antisym t s).
  destruct (String.compare s t); simpl; split; intros; congruence.
Qed.

End StrOrd.

(** ** The order on BSON values *)

Module BsonFacts.
Import Bson.

Lemma bson_leb_refl (v : Value) : leb v v = true.
Proof.
  unfold leb. destruct v; simpl; try reflexivity;
    now rewrite StrOrd.compare_refl.
Qed.

Lemma bson_leb_str (s t : string) : leb (VStr s) (VStr t) = String.leb s t.
Proof. reflexivity. Qed.

Lemma bson_leb_total (v w : Value) : leb v w = true \/ leb w v = true.
Proof.
  destruct v, w; try (left; reflexivity); try (right; reflexivity);
    apply String.leb_total.
Qed.

Lemma bson_leb_trans (u v w : Value) :
  leb u v = true -> leb v w = true -> leb u w = true.
Proof.
  destruct u, v, w; try reflexivity; try discriminate;
    apply StrOrd.leb_trans.
Qed.

End BsonFacts.

(** ** Collections *)

Module MongoFacts.
Import Bson Mongo.

Section Sorting.

Variables (k : string) (direction : Z).

Lemma before_total (a b : Document) :
  before k direction a b = true \/ before k direction b a = true.
Proof. unfold before. destruct (direction <? 0)%Z; apply BsonFacts.bson_leb_total. Qed.

Lemma before_trans (a b c : Document) :
  before k direction a b = true -> before k direction b c = true ->
  before k direction a c = true.
Proof.
  unfold before. destruct (direction <? 0)%Z; intros H1 H2;
    eapply BsonFacts.bson_leb_trans; eassumption.
Qed.

Lemma In_place (a x : Document) (l : list Document) :
  In x (place k direction a l) <-> x = a \/ In x l.
Proof.
  induction l as [|b l IH]; simpl; [intuition|].
  destruct (before k direction a b); simpl; [intuition|].
  rewrite IH. intuition.
Qed.

Lemma In_sort (x : Document) (l : list Document) :
  In x (sort k direction l) <-> In x l.
Proof.
  induction l as [|a l IH]; simpl; [reflexivity|].
  rewrite In_place, IH. intuition.
Qed.

Lemma place_sorted (a : Document) (l : list Document) :
  StronglySorted (fun x y => before k direction x y = true) l ->
  StronglySorted (fun x y => before k direction x y = true) (place k direction a l).
Proof.
  induction 1 as [|b l Hl IH Hb]; simpl.
  - repeat constructor.
  - destruct (before k direction a b) eqn:Hab.
    + constructor; [constructor; assumption|].
      constructor; [assumption|].
      eapply List.Forall_impl; [|exact Hb].
      intros c Hbc. eapply before_trans; eassumption.
    + constructor; [assumption|].
      apply List.Forall_forall. intros x Hx. apply In_place in Hx.
      destruct Hx as [->|Hx].
      * destruct (before_total a b) as [H|H]; congruence.
      * rewrite List.Forall_forall in Hb. now apply Hb.
Qed.

Lemma sort_sorted (l : list Document) :
  StronglySorted (fun x y => before k direction x y = true) (sort k direction l).
Proof.
  induction l as [|a l IH]; simpl; [constructor|].
  now apply place_sorted.
Qed.

End Sorting.

Lemma In_find (f : Filter) (d : Document) (coll : list Document) :
  In d (find f coll) <-> In d coll /\ matches f d = true.
Proof. apply filter_In. Qed.

Lemma find_one_some (f : Filter) (d : Document) (coll : list Document) :
  find_one f coll = Some d -> In d coll /\ matches f d = true.
Proof. apply find_some. Qed.

Lemma matches_id (v : Value) (d : Document) :
  matches (Field "_id" v) d = true <-> field d "_id" = v.
Proof. simpl. apply bool_decide_eq_true. Qed.

Lemma place_perm (k : string) (direction : Z) (a : Document)
    (l : list Document) :
  Permutation (place k direction a l) (a :: l).
Proof.
  induction l as [|b l IH]; simpl; [reflexivity|].
  destruct (before k direction a b); [reflexivity|].
  rewrite IH. apply perm_swap.
Qed.

Lemma sort_perm (k : string) (direction : Z) (l : list Document) :
  Permutation (sort k direction l) l.
Proof.
  induction l as [|a l IH]; simpl; [reflexivity|].
  rewrite place_perm. now constructor.
Qed.

Lemma filter_partition (f : Document -> bool) (l : list Document) :
  Permutation (List.filter f l ++ List.filter (fun d => negb (f d)) l) l.
Proof.
  induction l as [|a l IH]; simpl; [reflexivity|].
  destruct (f a); simpl.
  - now constructor.
  - rewrite <- Permutation_middle. now constructor.
Qed.

Lemma find_everything (f : Filter) (coll : list Document) :
  (forall d, In d coll -> matches f d = true) -> find f coll = coll.
Proof.
  unfold find. induction coll as [|a coll IH]; intros H; simpl; [reflexivity|].
  rewrite (H a) by now left. f_equal. apply IH. intros d Hd. apply H. now right.
Qed.

End MongoFacts.

(** ** The two listings *)

Module ListingFacts.
Import Bson Mongo PyStr PyDatetime PyBson Announcements Spec.

Lemma wf_has_id (coll : list Document) :
  wf coll = true -> forallb has_id coll = true.
Proof. unfold wf. intros H. apply andb_true_iff in H. apply H. Qed.

Lemma has_id_sublist (l l' : list Document) :
  (forall d, In d l' -> In d l) ->
  forallb has_id l = true -> forallb has_id l' = true.
Proof.
  rewrite !forallb_forall. auto.
Qed.

Lemma getitem_id (d : Document) (db : DB) :
  has_id d = true -> getitem d "_id" db = (inr (field d "_id"), db).
Proof.
  unfold has_id, getitem, field. intros H.
  apply bool_decide_eq_true in H. destruct H as [v ->]. reflexivity.
Qed.

Lemma loop_returns (cursor acc : list Document) (db : DB) :
  forallb has_id cursor = true ->
  for_announcement_in cursor acc db = (inr (acc ++ map rendered cursor), db).
Proof.
  revert acc. induction cursor as [|d cursor IH]; intros acc H; simpl.
  - now rewrite app_nil_r.
  - apply andb_true_iff in H. destruct H as [Hd Hc].
    unfold bind. rewrite (getitem_id d db Hd).
    rewrite (IH _ Hc). now rewrite <- app_assoc.
Qed.

Lemma loop_returned (cursor acc : list Document) (db db' : DB)
    (r : list Document) :
  for_announcement_in cursor acc db = (inr r, db') ->
  r = acc ++ map rendered cursor /\ db' = db.
Proof.
  revert acc. induction cursor as [|d cursor IH]; intros acc; simpl.
  - unfold ret. intros [= <- <-]. now rewrite app_nil_r.
  - unfold bind, getitem, rendered, field.
    destruct (d !! "_id") as [v|]; simpl; [|discriminate].
    intros H. apply IH in H. destruct H as [-> ->].
    now rewrite <- app_assoc.
Qed.

Lemma lookup_rendered (d : Document) (k : string) :
  k <> "_id" -> rendered d !! k = d !! k.
Proof. intros H. unfold rendered. now apply lookup_insert_ne. Qed.

Lemma field_rendered (d : Document) (k : string) :
  k <> "_id" -> field (rendered d) k = field d k.
Proof. intros H. unfold field. now rewrite lookup_rendered. Qed.

Lemma in_window_rendered (now : string) (d : Document) :
  in_window now (rendered d) <-> in_window now d.
Proof.
  unfold in_window. now rewrite !lookup_rendered by discriminate.
Qed.

Lemma active_query_window (now : string) (d : Document) :
  matches (active_query now) d = true <-> in_window now d.
Proof.
  unfold in_window, active_query. simpl. unfold field.
  destruct (d !! "start_date") as [[|s|o]|];
    destruct (d !! "expiration_date") as [[|e|o']|];
    simpl; rewrite ?BsonFacts.bson_leb_str, ?orb_false_r, ?andb_true_r, ?andb_false_r;
    split;
    try discriminate;
    try (intros [_ (e' & [=] & _)]; fail);
    try (intros [[[=]|(s' & [=] & _)] _]; fail).
  - intros H. apply andb_true_iff in H. destruct H as [Hs He].
    split; [right; exists s|exists e]; split; trivial.
  - intros [[[=]|(s' & [= <-] & Hs)] (e' & [= <-] & He)].
    now rewrite Hs, He.
  - intros H. split; [now left|]. exists e. split; trivial.
  - intros [_ (e' & [= <-] & He)]. exact He.
Qed.

Lemma newest_first_rendered (l : list Document) :
  newest_first l -> newest_first (map rendered l).
Proof.
  unfold newest_first.
  induction 1 as [|a l Hl IH Ha]; simpl; constructor; [assumption|].
  apply List.Forall_forall. intros x Hx. apply in_map_iff in Hx.
  destruct Hx as (y & <- & Hy).
  rewrite !field_rendered by discriminate.
  rewrite List.Forall_forall in Ha. now apply Ha.
Qed.

Lemma sort_newest_first (l : list Document) :
  newest_first (sort "created_at" (-1) l).
Proof. exact (MongoFacts.sort_sorted "created_at" (-1) l). Qed.

(** What the public listing computes on a well-formed collection. *)
Lemma get_active_announcements_returns (utcnow : datetime) (db : DB) :
  wf (announcements db) = true ->
  get_active_announcements utcnow db =
    (inr (map rendered
            (sort "created_at" (-1)
               (find (active_query (isoformat utcnow)) (announcements db)))),
     db).
Proof.
  intros Hwf. unfold get_active_announcements, bind, find_. simpl.
  rewrite loop_returns; [reflexivity|].
  eapply has_id_sublist; [|apply wf_has_id; exact Hwf].
  intros d Hd. apply MongoFacts.In_sort, MongoFacts.In_find in Hd. apply Hd.
Qed.

Lemma listed_iff (now : string) (coll : list Document) (d : Document) :
  In d coll ->
  In (rendered d)
     (map rendered (sort "created_at" (-1) (find (active_query now) coll)))
  <-> in_window now d.
Proof.
  intros Hd. rewrite in_map_iff. split.
  - intros (d' & Heq & Hin).
    apply MongoFacts.In_sort, MongoFacts.In_find in Hin.
    destruct Hin as [_ Hm]. apply active_query_window in Hm.
    apply in_window_rendered. rewrite <- Heq. now apply in_window_rendered.
  - intros Hw. exists d. split; [reflexivity|].
    apply MongoFacts.In_sort, MongoFacts.In_find. split; [assumption|].
    now apply active_query_window.
Qed.

End ListingFacts.

(** ** Authentication *)

Module AuthFacts.
Import Bson Mongo PyStr PyDatetime PyBson Announcements Spec.

Lemma found_by_id (v : Value) (coll : list Document) (d : Document) :
  v <> VNull -> find_one (Field "_id" v) coll = Some d -> found (Some d) = true.
Proof.
  intros Hv H. apply MongoFacts.find_one_some in H. destruct H as [_ H].
  apply MongoFacts.matches_id in H. simpl.
  apply negb_true_iff, bool_decide_eq_false. intros ->.
  unfold field in H. rewrite lookup_empty in H. simpl in H. congruence.
Qed.

Lemma truthy_some (u : string) : u <> "" -> truthy (Some u) = true.
Proof.
  intros H. simpl. apply negb_true_iff. now apply String.eqb_neq.
Qed.

Lemma known_teacher_found (u : string) (db : DB) :
  known_teacher u db ->
  truthy (Some u) = true
  /\ found (find_one (Field "_id" (VStr u)) (teachers db)) = true.
Proof.
  intros [Hu [d Hd]]. split; [now apply truthy_some|].
  rewrite Hd. eapply found_by_id; [|exact Hd]. discriminate.
Qed.

(** The sample teacher is on record wherever the sample staff list is. *)
Lemma sample_teacher_known (db : DB) :
  teachers db = [Sample.teacher] -> known_teacher "mrodriguez" db.
Proof.
  intros H. split; [discriminate|]. rewrite H. exists Sample.teacher.
  vm_compute; reflexivity.
Qed.

Lemma sample_stranger_unknown (db : DB) :
  teachers db = [Sample.teacher] ->
  find_one (Field "_id" (VStr "stranger")) (teachers db) = None.
Proof. intros ->. vm_compute; reflexivity. Qed.

End AuthFacts.

(** ** Time strings *)

Module DatetimeFacts.
Import Bson Mongo PyStr PyDatetime Announcements Spec.

Lemma append_cons (x : ascii) (a b : string) :
  String x a +:+ b = String x (a +:+ b).
Proof. reflexivity. Qed.

Lemma append_nil_l (b : string) : "" +:+ b = b.
Proof. reflexivity. Qed.

Lemma append_assoc (a b c : string) : (a +:+ b) +:+ c = a +:+ (b +:+ c).
Proof.
  induction a as [|x a IH]; [reflexivity|].
  rewrite !append_cons. now f_equal.
Qed.

Lemma append_nil_r (a : string) : a +:+ "" = a.
Proof.
  induction a as [|x a IH]; [reflexivity|].
  rewrite append_cons. now f_equal.
Qed.

Lemma length_append (a b : string) :
  String.length (a +:+ b) = (String.length a + String.length b)%nat.
Proof.
  induction a as [|x a IH]; [reflexivity|].
  rewrite append_cons. cbn [String.length Nat.add]. now f_equal.
Qed.

Lemma digit_mod (n : Z) : digit n = digit (n mod 10).
Proof. unfold digit. now rewrite Z.mod_mod by lia. Qed.

(** The ten digit characters. *)
Lemma digit_char (n : Z) :
  is_digit (digit n) = true
  /\ (Z.of_nat (nat_of_ascii (digit n)) - 48 = n mod 10)%Z
  /\ N_of_ascii (digit n) = Z.to_N (48 + n mod 10)
  /\ Ascii.eqb (digit n) "+" = false
  /\ Ascii.eqb (digit n) "-" = false
  /\ Ascii.eqb (digit n) "Z" = false.
Proof.
  rewrite digit_mod.
  assert (H : (0 <= n mod 10 < 10)%Z) by (apply Z.mod_pos_bound; lia).
  rewrite <- (Z.mod_mod n 10) at 2 3 by lia.
  generalize dependent (n mod 10)%Z. intros r Hr.
  assert (r = 0 \/ r = 1 \/ r = 2 \/ r = 3 \/ r = 4 \/ r = 5 \/ r = 6
          \/ r = 7 \/ r = 8 \/ r = 9)%Z as Hc by lia.
  repeat (destruct Hc as [->|Hc]; [vm_compute; repeat split|]).
  subst r. vm_compute. repeat split.
Qed.

Lemma zfill_succ (w : nat) (v : Z) (rest : string) :
  zfill (S w) v +:+ rest = zfill w (v / 10) +:+ String (digit v) rest.
Proof. cbn [zfill]. now rewrite append_assoc, append_cons, append_nil_l. Qed.

Lemma length_zfill (n : nat) (v : Z) : String.length (zfill n v) = n.
Proof.
  revert v. induction n as [|n IH]; intros v; [reflexivity|].
  cbn [zfill]. rewrite length_append, IH. simpl. lia.
Qed.

Lemma parse_digits_cons (n : nat) (acc : Z) (c : ascii) (s : string) :
  parse_digits (S n) acc (String c s) =
  if is_digit c
  then parse_digits n (10 * acc + (Z.of_nat (nat_of_ascii c) - 48)) s
  else None.
Proof. reflexivity. Qed.

Lemma parse_digits_last (n : nat) (acc : Z) (s : string) :
  parse_digits (S n) acc s =
  match parse_digits n acc s with
  | Some (a, String c r) =>
      if is_digit c then Some (10 * a + (Z.of_nat (nat_of_ascii c) - 48), r)%Z
      else None
  | _ => None
  end.
Proof.
  revert acc s. induction n as [|n IH]; intros acc s.
  - destruct s as [|c r]; [reflexivity|].
    rewrite parse_digits_cons. cbn [parse_digits].
    now destruct (is_digit c).
  - destruct s as [|c s']; [reflexivity|].
    rewrite !parse_digits_cons.
    destruct (is_digit c); [apply IH|reflexivity].
Qed.

Lemma parse_digits_zfill (n : nat) (v acc : Z) (rest : string) :
  (0 <= v < 10 ^ Z.of_nat n)%Z ->
  parse_digits n acc (zfill n v +:+ rest)
  = Some (acc * 10 ^ Z.of_nat n + v, rest)%Z.
Proof.
  revert v rest. induction n as [|n IH]; intros v rest Hv.
  - cbn [parse_digits zfill]. rewrite append_nil_l. simpl in Hv.
    f_equal. f_equal. simpl. lia.
  - rewrite zfill_succ, parse_digits_last.
    assert (Hp : (10 ^ Z.of_nat (S n) = 10 * 10 ^ Z.of_nat n)%Z).
    { rewrite Nat2Z.inj_succ, Z.pow_succ_r by lia. reflexivity. }
    rewrite IH by (rewrite Hp in Hv; split;
                   [apply Z.div_pos; lia
                   |apply Z.div_lt_upper_bound; lia]).
    destruct (digit_char v) as (Hd & Hval & _).
    rewrite Hd, Hval, Hp. f_equal. f_equal.
    pose proof (Z.div_mod v 10). lia.
Qed.

Lemma parse_digits_zfill0 (n : nat) (v : Z) (rest : string) :
  (0 <= v < 10 ^ Z.of_nat n)%Z ->
  parse_digits n 0 (zfill n v +:+ rest) = Some (v, rest).
Proof. intros H. now rewrite parse_digits_zfill. Qed.

Lemma replace_zfill (n : nat) (v : Z) (new rest : string) :
  replace "Z" new (zfill n v +:+ rest) = zfill n v +:+ replace "Z" new rest.
Proof.
  revert v rest. induction n as [|n IH]; intros v rest; [reflexivity|].
  rewrite !zfill_succ, IH. cbn [replace].
  destruct (digit_char v) as (_ & _ & _ & _ & _ & ->). reflexivity.
Qed.

Lemma split_tz_zfill (n : nat) (v : Z) (rest : string) :
  split_tz (zfill n v +:+ rest)
  = (zfill n v +:+ (split_tz rest).1, (split_tz rest).2).
Proof.
  revert v rest. induction n as [|n IH]; intros v rest.
  - cbn [zfill]. rewrite !append_nil_l. now destruct (split_tz rest).
  - rewrite !zfill_succ, IH. cbn [split_tz].
    destruct (digit_char v) as (_ & _ & _ & -> & -> & _). reflexivity.
Qed.

Lemma expect_same (c : ascii) (s : string) : expect c (String c s) = Some s.
Proof. cbn [expect]. now rewrite Ascii.eqb_refl. Qed.

Lemma days_in_month_le (y m : Z) : (days_in_month y m <= 31)%Z.
Proof.
  unfold days_in_month.
  destruct (m =? 2)%Z; [destruct (is_leap y); lia|].
  destruct ((m =? 4) || (m =? 6) || (m =? 9) || (m =? 11))%Z; lia.
Qed.

Lemma naive_utc_fields (dt : datetime) :
  naive_utc dt = true ->
  (1 <= year dt <= 9999 /\ 1 <= month dt <= 12 /\ 1 <= day dt <= 31
   /\ 0 <= hour dt <= 23 /\ 0 <= minute dt <= 59 /\ 0 <= second dt <= 59
   /\ 0 <= microsecond dt <= 999999)%Z
  /\ tzinfo dt = None
  /\ check_date_args (year dt) (month dt) (day dt)
     && check_time_args (hour dt) (minute dt) (second dt) (microsecond dt)
     = true.
Proof.
  unfold naive_utc. intros H. apply andb_true_iff in H. destruct H as [H Htz].
  apply bool_decide_eq_true in Htz. split; [|split; [exact Htz|exact H]].
  apply andb_true_iff in H. destruct H as [Hd Ht].
  unfold check_date_args, check_time_args in *.
  pose proof (days_in_month_le (year dt) (month dt)).
  repeat (rewrite andb_true_iff in Hd). repeat (rewrite andb_true_iff in Ht).
  rewrite !Z.leb_le in Hd. rewrite !Z.leb_le in Ht. lia.
Qed.

(** The shape of the time string of a naive datetime. *)
Lemma isoformat_naive (dt : datetime) :
  tzinfo dt = None ->
  isoformat dt =
  zfill 4 (year dt) +:+ String "-"
    (zfill 2 (month dt) +:+ String "-"
       (zfill 2 (day dt) +:+ String "T"
          (zfill 2 (hour dt) +:+ String ":"
             (zfill 2 (minute dt) +:+ String ":"
                (zfill 2 (second dt) +:+
                   (if (microsecond dt =? 0)%Z then ""
                    else String "." (zfill 6 (microsecond dt) +:+ ""))))))).
Proof.
  intros Htz. unfold isoformat, format_time, format_offset. rewrite Htz.
  destruct (microsecond dt =? 0)%Z;
    repeat first [rewrite append_assoc | rewrite append_cons
                 | rewrite append_nil_l | rewrite append_nil_r];
    reflexivity.
Qed.

Lemma split_tz_plain (c : ascii) (s : string) :
  Ascii.eqb c "+" = false -> Ascii.eqb c "-" = false ->
  split_tz (String c s) = (String c (split_tz s).1, (split_tz s).2).
Proof. intros H1 H2. cbn [split_tz]. now rewrite H1, H2. Qed.

Lemma replace_plain (c : ascii) (new s : string) :
  Ascii.eqb c "Z" = false ->
  replace "Z" new (String c s) = String c (replace "Z" new s).
Proof. intros H. cbn [replace]. now rewrite H. Qed.

(** The time string of a naive datetime has no ["Z"] to replace. *)
Lemma replace_isoformat (dt : datetime) :
  tzinfo dt = None -> replace "Z" "+00:00" (isoformat dt) = isoformat dt.
Proof.
  intros Htz. rewrite (isoformat_naive dt Htz).
  destruct (microsecond dt =? 0)%Z;
    repeat first [rewrite replace_zfill
                 | rewrite replace_plain by reflexivity];
    reflexivity.
Qed.

Local Opaque zfill.

(** [fromisoformat] reads the time string of a naive datetime back. *)
Lemma fromisoformat_isoformat (dt : datetime) :
  naive_utc dt = true -> fromisoformat (isoformat dt) = Some dt.
Proof.
  intros H. destruct (naive_utc_fields dt H) as (Hr & Htz & Hchk).
  rewrite (isoformat_naive dt Htz).
  unfold fromisoformat, parse_isoformat_date.
  rewrite parse_digits_zfill0 by (simpl; lia). cbn [mbind option_bind].
  rewrite expect_same. cbn [mbind option_bind].
  rewrite parse_digits_zfill0 by (simpl; lia). cbn [mbind option_bind].
  rewrite expect_same. cbn [mbind option_bind].
  rewrite parse_digits_zfill0 by (simpl; lia). cbn [mbind option_bind].
  rewrite split_tz_zfill, (split_tz_plain ":") by reflexivity.
  rewrite split_tz_zfill, (split_tz_plain ":") by reflexivity.
  rewrite split_tz_zfill.
  assert (Hfrac :
    split_tz (if (microsecond dt =? 0)%Z then ""
              else String "." (zfill 6 (microsecond dt) +:+ ""))
    = (if (microsecond dt =? 0)%Z then ""
       else String "." (zfill 6 (microsecond dt) +:+ ""), None)).
  { destruct (microsecond dt =? 0)%Z; [reflexivity|].
    rewrite (split_tz_plain ".") by reflexivity.
    now rewrite split_tz_zfill. }
  rewrite Hfrac. cbn [fst snd]. unfold parse_hh_mm_ss_ff.
  rewrite parse_digits_zfill0 by (simpl; lia). cbn [mbind option_bind].
  cbn [String.length Nat.eqb]. rewrite expect_same. cbn [mbind option_bind].
  rewrite parse_digits_zfill0 by (simpl; lia). cbn [mbind option_bind].
  cbn [String.length Nat.eqb]. rewrite expect_same. cbn [mbind option_bind].
  rewrite parse_digits_zfill0 by (simpl; lia). cbn [mbind option_bind].
  destruct (microsecond dt =? 0)%Z eqn:Hus.
  - apply Z.eqb_eq in Hus. rewrite Hus in Hchk.
    cbn [String.length Nat.eqb mbind option_bind]. rewrite Hchk.
    destruct dt. cbn in *. now subst.
  - cbn [String.length Nat.eqb]. rewrite expect_same. cbn [mbind option_bind].
    unfold parse_fraction. rewrite length_append, length_zfill.
    cbn [String.length Nat.add Nat.eqb].
    rewrite parse_digits_zfill0 by (simpl; lia). cbn [mbind option_bind].
    rewrite Hchk. destruct dt. cbn in *. now subst.
Qed.

Local Transparent zfill.

(** The time string of a naive datetime denotes its instant. *)
Lemma isoformat_instant (dt : datetime) :
  naive_utc dt = true ->
  instant <$> fromisoformat (replace "Z" "+00:00" (isoformat dt))
  = Some (instant dt).
Proof.
  intros H. destruct (naive_utc_fields dt H) as (_ & Htz & _).
  now rewrite (replace_isoformat dt Htz), (fromisoformat_isoformat dt H).
Qed.

End DatetimeFacts.

(** ** Time strings against instants *)

Module ChronoFacts.
Import Bson Mongo PyStr PyDatetime Announcements Spec DatetimeFacts.

Lemma lex_compare (a b q r q' r' : Z) (R : comparison) :
  (a = 10 * q + r -> b = 10 * q' + r' -> 0 <= r < 10 -> 0 <= r' < 10 ->
   match q ?= q' with
   | Eq => match r ?= r' with Eq => R | c => c end
   | c => c
   end
   = match a ?= b with Eq => R | c => c end)%Z.
Proof.
  intros -> -> Hr Hr'.
  destruct (Z.compare_spec q q'); destruct (Z.compare_spec r r');
    destruct (Z.compare_spec (10 * q + r) (10 * q' + r'));
    try reflexivity; lia.
Qed.

Lemma digit_compare (a b : Z) :
  Ascii.compare (digit a) (digit b) = (a mod 10 ?= b mod 10)%Z.
Proof.
  unfold Ascii.compare.
  destruct (digit_char a) as (_ & _ & -> & _).
  destruct (digit_char b) as (_ & _ & -> & _).
  pose proof (Z.mod_pos_bound a 10 ltac:(lia)).
  pose proof (Z.mod_pos_bound b 10 ltac:(lia)).
  rewrite Z2N.inj_compare by lia.
  destruct (Z.compare_spec (48 + a mod 10) (48 + b mod 10));
    destruct (Z.compare_spec (a mod 10) (b mod 10)); try reflexivity; lia.
Qed.

Lemma compare_cons (c : ascii) (x y : string) :
  String.compare (String c x) (String c y) = String.compare x y.
Proof. cbn [String.compare]. now rewrite StrOrd.ascii_compare_refl. Qed.

(** Zero-padded numbers of one width compare as the numbers do. *)
Lemma zfill_compare (n : nat) (a b : Z) (x y : string) :
  (0 <= a < 10 ^ Z.of_nat n)%Z -> (0 <= b < 10 ^ Z.of_nat n)%Z ->
  String.compare (zfill n a +:+ x) (zfill n b +:+ y)
  = match (a ?= b)%Z with Eq => String.compare x y | c => c end.
Proof.
  revert a b x y. induction n as [|n IH]; intros a b x y Ha Hb.
  - cbn [zfill]. rewrite !append_nil_l. simpl in Ha, Hb.
    replace a with 0%Z by lia. replace b with 0%Z by lia. reflexivity.
  - assert (Hp : (10 ^ Z.of_nat (S n) = 10 * 10 ^ Z.of_nat n)%Z).
    { rewrite Nat2Z.inj_succ, Z.pow_succ_r by lia. reflexivity. }
    rewrite Hp in Ha, Hb.
    rewrite !zfill_succ.
    rewrite IH by (split; [apply Z.div_pos; lia
                          |apply Z.div_lt_upper_bound; lia]).
    cbn [String.compare]. rewrite digit_compare.
    apply lex_compare.
    + apply Z.div_mod. lia.
    + apply Z.div_mod. lia.
    + apply Z.mod_pos_bound. lia.
    + apply Z.mod_pos_bound. lia.
Qed.

Lemma fraction_compare (ua ub : Z) :
  (0 <= ua <= 999999)%Z -> (0 <= ub <= 999999)%Z ->
  String.compare
    (if (ua =? 0)%Z then "" else String "." (zfill 6 ua +:+ ""))
    (if (ub =? 0)%Z then "" else String "." (zfill 6 ub +:+ ""))
  = (ua ?= ub)%Z.
Proof.
  intros Ha Hb.
  destruct (Z.eqb_spec ua 0) as [->|Hna]; destruct (Z.eqb_spec ub 0) as [->|Hnb].
  - reflexivity.
  - cbn [String.compare]. symmetry. apply Z.compare_lt_iff. lia.
  - cbn [String.compare]. symmetry. apply Z.compare_gt_iff. lia.
  - rewrite compare_cons, zfill_compare by (simpl; lia).
    now destruct (ua ?= ub)%Z.
Qed.

Local Opaque zfill.

(** Time strings of naive datetimes compare field by field. *)
Lemma isoformat_compare (a b : datetime) :
  naive_utc a = true -> naive_utc b = true ->
  String.compare (isoformat a) (isoformat b) =
  match (year a ?= year b)%Z with
  | Eq =>
    match (month a ?= month b)%Z with
    | Eq =>
      match (day a ?= day b)%Z with
      | Eq =>
        match (hour a ?= hour b)%Z with
        | Eq =>
          match (minute a ?= minute b)%Z with
          | Eq =>
            match (second a ?= second b)%Z with
            | Eq => (microsecond a ?= microsecond b)%Z
            | c => c
            end
          | c => c
          end
        | c => c
        end
      | c => c
      end
    | c => c
    end
  | c => c
  end.
Proof.
  intros Ha Hb.
  destruct (naive_utc_fields a Ha) as (Hra & Htza & _).
  destruct (naive_utc_fields b Hb) as (Hrb & Htzb & _).
  rewrite (isoformat_naive a Htza), (isoformat_naive b Htzb).
  rewrite zfill_compare, compare_cons by (simpl; lia).
  rewrite zfill_compare, compare_cons by (simpl; lia).
  rewrite zfill_compare, compare_cons by (simpl; lia).
  rewrite zfill_compare, compare_cons by (simpl; lia).
  rewrite zfill_compare, compare_cons by (simpl; lia).
  rewrite zfill_compare by (simpl; lia).
  rewrite fraction_compare by lia. reflexivity.
Qed.

Local Transparent zfill.

(** *** The calendar *)

Lemma leap_day (y : Z) :
  (1 <= y ->
   days_before_year (y + 1)
   = days_before_year y + 365 + (if is_leap y then 1 else 0))%Z.
Proof.
  intros Hy. unfold days_before_year, is_leap. cbv zeta.
  replace (y + 1 - 1)%Z with y by lia.
  destruct (Z.eqb_spec (y mod 4) 0); destruct (Z.eqb_spec (y mod 100) 0);
    destruct (Z.eqb_spec (y mod 400) 0); cbn [andb orb negb];
    Z.div_mod_to_equations; lia.
Qed.

Lemma days_before_year_mono (y y' : Z) :
  (1 <= y <= y' -> days_before_year y <= days_before_year y')%Z.
Proof.
  intros H. unfold days_before_year. cbv zeta.
  Z.div_mod_to_equations. lia.
Qed.

Lemma month_table (y m : Z) :
  (1 <= m <= 12)%Z ->
  let before := days_before_month y m in
  let len := days_in_month y m in
  let leap := (if is_leap y then 1 else 0)%Z in
  (m = 1 /\ before = 0 /\ len = 31
   \/ m = 2 /\ before = 31 /\ len = 28 + leap
   \/ m = 3 /\ before = 59 + leap /\ len = 31
   \/ m = 4 /\ before = 90 + leap /\ len = 30
   \/ m = 5 /\ before = 120 + leap /\ len = 31
   \/ m = 6 /\ before = 151 + leap /\ len = 30
   \/ m = 7 /\ before = 181 + leap /\ len = 31
   \/ m = 8 /\ before = 212 + leap /\ len = 31
   \/ m = 9 /\ before = 243 + leap /\ len = 30
   \/ m = 10 /\ before = 273 + leap /\ len = 31
   \/ m = 11 /\ before = 304 + leap /\ len = 30
   \/ m = 12 /\ before = 334 + leap /\ len = 31)%Z.
Proof.
  intros Hm. cbv zeta.
  assert (m = 1 \/ m = 2 \/ m = 3 \/ m = 4 \/ m = 5 \/ m = 6 \/ m = 7
          \/ m = 8 \/ m = 9 \/ m = 10 \/ m = 11 \/ m = 12)%Z as Hc by lia.
  repeat (destruct Hc as [->|Hc]);
    [..|subst m];
    repeat first
      [ left; split; [reflexivity|];
        cbv -[is_leap]; destruct (is_leap y); split; reflexivity
      | right ];
    split; [reflexivity|];
    cbv -[is_leap]; destruct (is_leap y); split; reflexivity.
Qed.

Lemma month_step (y m m' : Z) :
  (1 <= m -> m < m' -> m' <= 12 ->
   days_before_month y m + days_in_month y m <= days_before_month y m')%Z.
Proof.
  intros H1 H2 H3.
  pose proof (month_table y m ltac:(lia)) as T.
  pose proof (month_table y m' ltac:(lia)) as T'.
  cbv zeta in T, T'.
  destruct (is_leap y);
    repeat (destruct T as [(? & ? & ?)|T]); try destruct T as (? & ? & ?);
    repeat (destruct T' as [(? & ? & ?)|T']); try destruct T' as (? & ? & ?);
    lia.
Qed.

Lemma year_span (y m d : Z) :
  (1 <= m <= 12 -> 1 <= d <= days_in_month y m ->
   1 <= days_before_month y m + d <= 365 + (if is_leap y then 1 else 0))%Z.
Proof.
  intros Hm Hd.
  pose proof (month_table y m Hm) as T. cbv zeta in T.
  destruct (is_leap y);
    repeat (destruct T as [(? & ? & ?)|T]); try destruct T as (? & ? & ?);
    lia.
Qed.

Lemma naive_utc_day (dt : datetime) :
  naive_utc dt = true ->
  (1 <= day dt <= days_in_month (year dt) (month dt))%Z.
Proof.
  unfold naive_utc, check_date_args. intros H.
  repeat (apply andb_true_iff in H; destruct H as [H ?]).
  rewrite Z.leb_le in *. lia.
Qed.

(** Dates compare as their ordinals do. *)
Lemma date_compare (a b : datetime) (R : comparison) :
  naive_utc a = true -> naive_utc b = true ->
  match (year a ?= year b)%Z with
  | Eq =>
    match (month a ?= month b)%Z with
    | Eq => match (day a ?= day b)%Z with Eq => R | c => c end
    | c => c
    end
  | c => c
  end
  = match (toordinal a ?= toordinal b)%Z with Eq => R | c => c end.
Proof.
  intros Ha Hb.
  destruct (naive_utc_fields a Ha) as (Hra & _ & _).
  destruct (naive_utc_fields b Hb) as (Hrb & _ & _).
  pose proof (naive_utc_day a Ha) as Hda.
  pose proof (naive_utc_day b Hb) as Hdb.
  pose proof (year_span (year a) (month a) (day a) ltac:(lia) Hda) as Sa.
  pose proof (year_span (year b) (month b) (day b) ltac:(lia) Hdb) as Sb.
  unfold toordinal.
  destruct (Z.compare_spec (year a) (year b)) as [Hy|Hy|Hy].
  - rewrite <- Hy in *.
    destruct (Z.compare_spec (month a) (month b)) as [Hm|Hm|Hm].
    + rewrite <- Hm in *.
      destruct (Z.compare_spec (day a) (day b));
        destruct (Z.compare_spec
                    (days_before_year (year a)
                     + days_before_month (year a) (month a) + day a)
                    (days_before_year (year a)
                     + days_before_month (year a) (month a) + day b));
        try reflexivity; lia.
    + pose proof (month_step (year a) (month a) (month b)
                    ltac:(lia) Hm ltac:(lia)).
      symmetry. rewrite (proj2 (Z.compare_lt_iff _ _)); [reflexivity|lia].
    + pose proof (month_step (year a) (month b) (month a)
                    ltac:(lia) Hm ltac:(lia)).
      symmetry. rewrite (proj2 (Z.compare_gt_iff _ _)); [reflexivity|lia].
  - pose proof (leap_day (year a) ltac:(lia)).
    pose proof (days_before_year_mono (year a + 1) (year b) ltac:(lia)).
    symmetry. rewrite (proj2 (Z.compare_lt_iff _ _)); [reflexivity|lia].
  - pose proof (leap_day (year b) ltac:(lia)).
    pose proof (days_before_year_mono (year b + 1) (year a) ltac:(lia)).
    symmetry. rewrite (proj2 (Z.compare_gt_iff _ _)); [reflexivity|lia].
Qed.

(** The time strings of naive datetimes are ordered as their instants. *)
Lemma isoformat_order (a b : datetime) :
  naive_utc a = true -> naive_utc b = true ->
  String.compare (isoformat a) (isoformat b) = (instant a ?= instant b)%Z.
Proof.
  intros Ha Hb. rewrite (isoformat_compare a b Ha Hb).
  rewrite (date_compare a b _ Ha Hb).
  destruct (naive_utc_fields a Ha) as (Hra & Htza & _).
  destruct (naive_utc_fields b Hb) as (Hrb & Htzb & _).
  unfold instant. rewrite Htza, Htzb. cbn [default from_option id].
  generalize (toordinal a) (toordinal b). intros oa ob.
  destruct (Z.compare_spec oa ob);
    [destruct (Z.compare_spec (hour a) (hour b));
     [destruct (Z.compare_spec (minute a) (minute b));
      [destruct (Z.compare_spec (second a) (second b));
       [destruct (Z.compare_spec (microsecond a) (microsecond b))|..]|..]|..]
    |..];
    symmetry;
    first [ apply Z.compare_eq_iff; lia
          | apply Z.compare_lt_iff; lia
          | apply Z.compare_gt_iff; lia ].
Qed.

Lemma isoformat_leb (a b : datetime) :
  naive_utc a = true -> naive_utc b = true ->
  String.leb (isoformat a) (isoformat b) = true <-> (instant a <= instant b)%Z.
Proof.
  intros Ha Hb. unfold String.leb. rewrite (isoformat_order a b Ha Hb).
  destruct (Z.compare_spec (instant a) (instant b)); split;
    first [reflexivity | discriminate | lia].
Qed.

End ChronoFacts.

(** ** The claims about the listings *)

Module Listing.
Import Bson Mongo PyStr PyDatetime PyBson Announcements Spec.
Import ListingFacts.

Lemma find_all (coll : list Document) : find (Dict []) coll = coll.
Proof.
  unfold find. induction coll as [|d coll IH]; [reflexivity|].
  cbn [List.filter]. change (matches (Dict []) d) with true. cbv iota.
  now f_equal.
Qed.

Lemma get_all_announcements_returns (u : string) (db : DB) :
  known_teacher u db ->
  wf (announcements db) = true ->
  get_all_announcements (Some u) db =
    (inr (map rendered (sort "created_at" (-1) (announcements db))), db).
Proof.
  intros Hk Hwf. apply AuthFacts.known_teacher_found in Hk.
  destruct Hk as [Ht Hf].
  unfold get_all_announcements. rewrite Ht.
  unfold bind at 1, find_one_ at 1. cbn [negb of_optional get]. cbv beta iota.
  rewrite Hf. cbn [negb]. cbv beta iota.
  unfold bind, find_. cbn [get]. rewrite find_all.
  rewrite loop_returns; [reflexivity|].
  eapply has_id_sublist; [|apply wf_has_id; exact Hwf].
  intros d Hd. now apply MongoFacts.In_sort in Hd.
Qed.

(** For dates written as [utcnow().isoformat()] writes them, the string
    window is the window of instants. *)
Lemma naive_window (utcnow : datetime) (d : Document) :
  naive_utc utcnow = true ->
  naive_dates d ->
  in_window (isoformat utcnow) d <-> chronologically_in_window utcnow d.
Proof.
  intros Hn [Hs (te & Hte & He)].
  assert (Hread : forall t, naive_utc t = true ->
                    instant_of (isoformat t) = Some (instant t)).
  { intros t Ht. unfold instant_of. now apply DatetimeFacts.isoformat_instant. }
  unfold in_window, chronologically_in_window. rewrite He. split.
  - intros [Hstart (e & [= <-] & Hle)]. split.
    + destruct Hs as [->|(ts & Hts & Hs)]; [now left|]. rewrite Hs in *.
      destruct Hstart as [[=]|(s & [= <-] & Hls)]. right.
      exists (isoformat ts), (instant ts).
      split; [reflexivity|]. split; [now apply Hread|].
      now apply ChronoFacts.isoformat_leb.
    + exists (isoformat te), (instant te).
      split; [reflexivity|]. split; [now apply Hread|].
      now apply ChronoFacts.isoformat_leb.
  - intros [Hstart (e & t & [= <-] & Ht & Hle)]. split.
    + destruct Hs as [->|(ts & Hts & Hs)]; [now left|]. rewrite Hs in *.
      destruct Hstart as [[=]|(s & t' & [= <-] & Ht' & Hls)]. right.
      exists (isoformat ts). split; [reflexivity|].
      rewrite (Hread ts Hts) in Ht'. injection Ht' as <-.
      now apply ChronoFacts.isoformat_leb.
    + exists (isoformat te). split; [reflexivity|].
      rewrite (Hread te Hte) in Ht. injection Ht as <-.
      now apply ChronoFacts.isoformat_leb.
Qed.







(** C3: both listings come back in descending order of [created_at],
    and they hold what they should: the public one, on every well-formed
    store, exactly the announcements inside their window, each once; the
    teachers' one every stored announcement, each once, for every teacher
    on record and whenever it returns at all. *)
Theorem listings_newest_first (utcnow : datetime) (u : string) (db : DB) :
  wf (announcements db) = true ->
  (exists result listed hidden,
     get_active_announcements utcnow db = (inr result, db)
     /\ newest_first result
     /\ Permutation result (map rendered listed)
     /\ Permutation (listed ++ hidden) (announcements db)
     /\ (forall d, In d listed -> in_window (isoformat utcnow) d)
     /\ (forall d, In d hidden -> ~ in_window (isoformat utcnow) d))
  /\ (known_teacher u db ->
      exists result,
        get_all_announcements (Some u) db = (inr result, db)
        /\ newest_first result
        /\ Permutation result (map rendered (announcements db)))
  /\ (forall teacher_username result db',
        get_all_announcements teacher_username db = (inr result, db') ->
        newest_first result
        /\ Permutation result (map rendered (announcements db))).
Proof.
  intros Hwf. split; [|split].
  - exists (map rendered
              (sort "created_at" (-1)
                 (find (active_query (isoformat utcnow)) (announcements db)))),
      (find (active_query (isoformat utcnow)) (announcements db)),
      (List.filter
         (fun d => negb (matches (active_query (isoformat utcnow)) d))
         (announcements db)).
    split; [now apply get_active_announcements_returns|].
    split; [apply newest_first_rendered, sort_newest_first|].
    split; [apply Permutation_map, MongoFacts.sort_perm|].
    split; [apply MongoFacts.filter_partition|].
    split.
    + intros d Hd. apply MongoFacts.In_find in Hd.
      now apply active_query_window.
    + intros d Hd Hw. apply filter_In in Hd. destruct Hd as [_ Hd].
      apply active_query_window in Hw. rewrite Hw in Hd. discriminate.
  - intros Hk. eexists. split; [now apply get_all_announcements_returns|].
    split; [apply newest_first_rendered, sort_newest_first|].
    apply Permutation_map, MongoFacts.sort_perm.
  - intros tu result db'. unfold get_all_announcements.
    destruct (truthy tu); [|discriminate].
    unfold bind at 1, find_one_ at 1. cbn [negb]. cbv beta iota.
    destruct (found _); [|discriminate]. cbn [negb]. cbv beta iota.
    unfold bind, find_. intros H. apply loop_returned in H.
    destruct H as [-> _]. cbn [app get]. rewrite find_all.
    split; [apply newest_first_rendered, sort_newest_first|].
    apply Permutation_map, MongoFacts.sort_perm.
Qed.

Lemma listings_newest_first_witness :
  wf (announcements Sample.school) = true
  /\ known_teacher "mrodriguez" Sample.school
  /\ (exists result listed hidden,
        get_active_announcements Sample.midnight Sample.school
          = (inr result, Sample.school)
        /\ newest_first result
        /\ Permutation result (map rendered listed)
        /\ Permutation (listed ++ hidden) (announcements Sample.school)
        /\ (forall d, In d listed -> in_window (isoformat Sample.midnight) d)
        /\ (forall d, In d hidden ->
              ~ in_window (isoformat Sample.midnight) d))
  /\ (exists result,
        get_all_announcements (Some "mrodriguez") Sample.school
          = (inr result, Sample.school)
        /\ newest_first result
        /\ Permutation result (map rendered (announcements Sample.school))).
Proof.
  assert (Hwf : wf (announcements Sample.school) = true)
    by (vm_compute; reflexivity).
  assert (Hk : known_teacher "mrodriguez" Sample.school).
  { apply AuthFacts.sample_teacher_known. reflexivity. }
  destruct (listings_newest_first Sample.midnight "mrodriguez" Sample.school Hwf)
    as (Hpublic & Hall & _).
  split; [exact Hwf|]. split; [exact Hk|]. split; [exact Hpublic|].
  exact (Hall Hk).
Defined.

End Listing.

(** ** Exit paths of the teacher-only handlers *)

Module HandlerFacts.
Import Bson Mongo PyStr PyDatetime PyBson Announcements Spec.

Ltac pass_auth Ht Hf :=
  rewrite Ht; unfold bind at 1, find_one_ at 1; cbn [negb get];
  cbv beta iota; rewrite Hf; cbn [negb]; cbv beta iota.

Lemma put_same (h : Handle) (db : DB) : put h (get h db) db = db.
Proof. destruct h, db; reflexivity. Qed.

Lemma not_truthy (o : option string) :
  truthy o = false <-> o = None \/ o = Some "".
Proof.
  destruct o as [s|]; simpl; [|intuition].
  rewrite negb_false_iff, String.eqb_eq. split.
  - intros ->. now right.
  - intros [[=]|[= ->]]. reflexivity.
Qed.

Lemma authenticated_known (u : string) (db : DB) :
  known_teacher u db -> authenticated (Some u) db.
Proof. apply AuthFacts.known_teacher_found. Qed.

Lemma unknown_not_found (u : string) (db : DB) :
  find_one (Field "_id" (VStr u)) (teachers db) = None ->
  found (find_one (Field "_id" (of_optional (Some u))) (teachers db)) = false.
Proof. simpl of_optional. now intros ->. Qed.

Lemma get_all_missing (tu : option string) (db : DB) :
  truthy tu = false ->
  get_all_announcements tu db = (inl missing_credential, db).
Proof. intros Ht. unfold get_all_announcements. now rewrite Ht. Qed.

Lemma get_all_invalid (tu : option string) (db : DB) :
  truthy tu = true ->
  found (find_one (Field "_id" (of_optional tu)) (teachers db)) = false ->
  get_all_announcements tu db = (inl invalid_credential, db).
Proof.
  intros Ht Hf. unfold get_all_announcements. pass_auth Ht Hf. reflexivity.
Qed.

Lemma delete_missing (id : string) (tu : option string) (db : DB) :
  truthy tu = false ->
  delete_announcement id tu db = (inl missing_credential, db).
Proof. intros Ht. unfold delete_announcement. now rewrite Ht. Qed.

Lemma delete_invalid (id : string) (tu : option string) (db : DB) :
  truthy tu = true ->
  found (find_one (Field "_id" (of_optional tu)) (teachers db)) = false ->
  delete_announcement id tu db = (inl invalid_credential, db).
Proof.
  intros Ht Hf. unfold delete_announcement. pass_auth Ht Hf. reflexivity.
Qed.

Section Create.

Variable fromisoformat : string -> option datetime.
Variables (utcnow : datetime) (new_id : ObjectId).
Variables (message expiration_date : string).
Variables (start_date teacher_username : option string).
Variable db : DB.

Lemma create_missing :
  truthy teacher_username = false ->
  create_announcement fromisoformat utcnow new_id message expiration_date
    start_date teacher_username db = (inl missing_credential, db).
Proof. intros Ht. unfold create_announcement. now rewrite Ht. Qed.

Lemma create_invalid :
  truthy teacher_username = true ->
  found (find_one (Field "_id" (of_optional teacher_username)) (teachers db))
    = false ->
  create_announcement fromisoformat utcnow new_id message expiration_date
    start_date teacher_username db = (inl invalid_credential, db).
Proof.
  intros Ht Hf. unfold create_announcement. pass_auth Ht Hf. reflexivity.
Qed.

Lemma create_bad_dates :
  authenticated teacher_username db ->
  dates_parse fromisoformat expiration_date start_date = false ->
  create_announcement fromisoformat utcnow new_id message expiration_date
    start_date teacher_username db = (inl invalid_date, db).
Proof.
  intros [Ht Hf] Hd. unfold create_announcement. pass_auth Ht Hf.
  rewrite Hd. reflexivity.
Qed.

Lemma new_record_no_id (u : string) :
  new_record utcnow message expiration_date start_date u !! "_id" = None.
Proof.
  unfold new_record. cbv zeta. destruct (truthy start_date);
    repeat (rewrite lookup_insert_ne by discriminate);
    now rewrite lookup_singleton_ne by discriminate.
Qed.

(** Past the checks, the outcome is that of the insertion. *)
Lemma create_inserts (u : string) :
  teacher_username = Some u ->
  authenticated teacher_username db ->
  dates_parse fromisoformat expiration_date start_date = true ->
  create_announcement fromisoformat utcnow new_id message expiration_date
    start_date teacher_username db =
  let doc := new_record utcnow message expiration_date start_date u in
  if existsb (fun d => bool_decide (field d "_id" = VObjectId new_id))
       (announcements db)
  then (inl DuplicateKeyError, db)
  else (inr (<["_id" := VStr (hexlify new_id)]> doc),
        {| announcements :=
             announcements db ++ [<["_id" := VObjectId new_id]> doc];
           teachers := teachers db |}).
Proof.
  intros -> [Ht Hf] Hd. unfold create_announcement. pass_auth Ht Hf.
  rewrite Hd. cbn [negb]. cbv beta iota zeta.
  unfold bind, insert_one_, insert_one. cbn [get of_optional].
  fold (new_record utcnow message expiration_date start_date u).
  rewrite new_record_no_id.
  replace (field (<["_id" := VObjectId new_id]>
             (new_record utcnow message expiration_date start_date u)) "_id")
    with (VObjectId new_id)
    by (unfold field; now rewrite lookup_insert_eq).
  destruct (existsb _ _); [reflexivity|].
  cbn [fst snd inserted_id put str ret]. unfold ret.
  now rewrite insert_insert_eq.
Qed.

End Create.

End HandlerFacts.

(** ** Updating and deleting by identifier *)

Module StoreFacts.
Import Bson Mongo Announcements Spec.

Lemma update_one_found (f : Filter) (u : Update) (coll : list Document)
    (d : Document) :
  find_one f coll = Some d ->
  update_one f u coll =
    (replace_first f (apply_update u d) coll,
     {| matched_count := 1;
        modified_count := if bool_decide (apply_update u d = d) then 0 else 1 |}).
Proof.
  unfold find_one. induction coll as [|a coll IH]; simpl; [discriminate|].
  destruct (matches f a).
  - now intros [= ->].
  - intros H. now rewrite (IH H).
Qed.

Lemma find_one_replace_first (f : Filter) (d d' : Document)
    (coll : list Document) :
  find_one f coll = Some d -> matches f d' = true ->
  find_one f (replace_first f d' coll) = Some d'.
Proof.
  unfold find_one. intros H Hm.
  induction coll as [|a coll IH]; simpl in *; [discriminate|].
  destruct (matches f a) eqn:Ha; simpl.
  - now rewrite Hm.
  - rewrite Ha. now apply IH.
Qed.

Lemma replace_first_twice (f : Filter) (d1 d2 : Document)
    (coll : list Document) :
  matches f d1 = true ->
  replace_first f d2 (replace_first f d1 coll) = replace_first f d2 coll.
Proof.
  intros Hm. induction coll as [|a coll IH]; simpl; [reflexivity|].
  destruct (matches f a) eqn:Ha; simpl.
  - now rewrite Hm.
  - rewrite Ha. now rewrite IH.
Qed.

Lemma delete_one_found (f : Filter) (coll : list Document) (d : Document) :
  find_one f coll = Some d -> (delete_one f coll).2 = {| deleted_count := 1 |}.
Proof.
  unfold find_one. induction coll as [|a coll IH]; simpl; [discriminate|].
  destruct (matches f a); [reflexivity|]. exact IH.
Qed.

Lemma delete_one_missing (f : Filter) (coll : list Document) :
  find_one f coll = None -> delete_one f coll = (coll, {| deleted_count := 0 |}).
Proof.
  unfold find_one. induction coll as [|a coll IH]; simpl; [reflexivity|].
  destruct (matches f a); [discriminate|].
  intros H. now rewrite (IH H).
Qed.

Lemma delete_one_subset (f : Filter) (coll : list Document) (x : Document) :
  In x (delete_one f coll).1 -> In x coll.
Proof.
  induction coll as [|a coll IH]; simpl; [tauto|].
  destruct (matches f a); simpl; [tauto|]. intros [->|H]; auto.
Qed.

Lemma find_one_none (f : Filter) (coll : list Document) :
  find_one f coll = None <-> forall d, In d coll -> matches f d = false.
Proof.
  unfold find_one. split.
  - intros H d Hd. now apply (find_none _ _ H).
  - induction coll as [|a coll IH]; simpl; [reflexivity|].
    intros H. rewrite (H a) by now left. apply IH. intros d Hd. apply H. now right.
Qed.

Lemma distinct_tail (v : Value) (vs : list Value) :
  distinct (v :: vs) = true -> ~ In v vs /\ distinct vs = true.
Proof.
  simpl. intros H. apply andb_true_iff in H. destruct H as [Hn Hd].
  split; [|exact Hd]. intros Hin. apply negb_true_iff in Hn.
  assert (existsb (fun w => bool_decide (w = v)) vs = true); [|congruence].
  apply existsb_exists. exists v. split; [exact Hin|].
  now apply bool_decide_eq_true.
Qed.

Lemma delete_one_length (f : Filter) (coll : list Document) (d : Document) :
  find_one f coll = Some d ->
  length coll = S (length (delete_one f coll).1).
Proof.
  unfold find_one. induction coll as [|a coll IH]; simpl; [discriminate|].
  destruct (matches f a); [reflexivity|].
  intros H. simpl. now rewrite <- (IH H).
Qed.

Lemma delete_one_keeps (f : Filter) (coll : list Document) (x : Document) :
  In x coll -> matches f x = false -> In x (delete_one f coll).1.
Proof.
  intros Hin Hx. induction coll as [|a coll IH]; simpl in *; [tauto|].
  destruct Hin as [->|Hin].
  - rewrite Hx. now left.
  - destruct (matches f a); simpl; auto.
Qed.

(** With distinct identifiers, deleting by identifier leaves no match. *)
Lemma delete_one_gone (v : Value) (coll : list Document) :
  distinct (ids coll) = true ->
  find_one (Field "_id" v) (delete_one (Field "_id" v) coll).1 = None.
Proof.
  induction coll as [|a coll IH]; [reflexivity|].
  intros Hd. change (ids (a :: coll)) with (field a "_id" :: ids coll) in Hd.
  apply distinct_tail in Hd. destruct Hd as [Hn Hd].
  cbn [delete_one]. destruct (matches (Field "_id" v) a) eqn:Ha.
  - cbn [fst]. apply find_one_none. intros d Hin.
    apply MongoFacts.matches_id in Ha.
    destruct (matches (Field "_id" v) d) eqn:Hm; [|reflexivity].
    apply MongoFacts.matches_id in Hm. exfalso. apply Hn.
    unfold ids. apply in_map_iff. exists d. split; [congruence|exact Hin].
  - cbn [fst]. unfold find_one. cbn [List.find]. rewrite Ha. now apply IH.
Qed.

Lemma delete_one_wf (f : Filter) (coll : list Document) :
  wf coll = true -> wf (delete_one f coll).1 = true.
Proof.
  unfold wf. induction coll as [|a coll IH]; [reflexivity|].
  intros H. apply andb_true_iff in H. destruct H as [Hi Hd].
  cbn [forallb] in Hi. apply andb_true_iff in Hi. destruct Hi as [Ha Hi].
  change (ids (a :: coll)) with (field a "_id" :: ids coll) in Hd.
  apply distinct_tail in Hd. destruct Hd as [Hn Hd].
  cbn [delete_one]. destruct (matches f a); cbn [fst].
  - now rewrite Hi, Hd.
  - specialize (IH ltac:(now rewrite Hi, Hd)).
    apply andb_true_iff in IH. destruct IH as [IHi IHd].
    cbn [forallb ids map distinct]. rewrite Ha, IHi. cbn [andb].
    fold (ids (delete_one f coll).1). rewrite IHd, andb_true_r.
    apply negb_true_iff. destruct (existsb _ _) eqn:E; [|reflexivity].
    exfalso. apply Hn. apply existsb_exists in E. destruct E as (w & Hw & Hv).
    apply bool_decide_eq_true in Hv. subst w.
    unfold ids in *. apply in_map_iff in Hw. destruct Hw as (x & Hx & Hin).
    apply in_map_iff. exists x. split; [exact Hx|].
    now apply delete_one_subset in Hin.
Qed.

End StoreFacts.

(** ** Exit paths of update and delete *)

Module UpdateFacts.
Import Bson Mongo PyStr PyDatetime PyBson Announcements Spec.
Import HandlerFacts StoreFacts.

Lemma lookup_id (d : Document) (oid : ObjectId) :
  field d "_id" = VObjectId oid -> d !! "_id" = Some (VObjectId oid).
Proof.
  unfold field. destruct (d !! "_id") as [v|]; simpl; [congruence|discriminate].
Qed.

Lemma field_id_updated (old : Document) (message expiration_date : string)
    (start_date : option string) :
  field (updated_record old message expiration_date start_date) "_id"
  = field old "_id".
Proof.
  unfold updated_record, field. destruct (truthy start_date);
    repeat (rewrite lookup_insert_ne by discriminate);
    [reflexivity|]. now rewrite lookup_delete_ne by discriminate.
Qed.

Lemma field_id_unset (old : Document) :
  field (delete "start_date" old) "_id" = field old "_id".
Proof. unfold field. now rewrite lookup_delete_ne by discriminate. Qed.

Section Update.

Variable fromisoformat : string -> option datetime.
Variables (announcement_id message expiration_date : string).
Variables (start_date teacher_username : option string).
Variable db : DB.

Lemma update_missing :
  truthy teacher_username = false ->
  update_announcement fromisoformat announcement_id message expiration_date
    start_date teacher_username db = (inl missing_credential, db).
Proof. intros Ht. unfold update_announcement. now rewrite Ht. Qed.

Lemma update_invalid :
  truthy teacher_username = true ->
  found (find_one (Field "_id" (of_optional teacher_username)) (teachers db))
    = false ->
  update_announcement fromisoformat announcement_id message expiration_date
    start_date teacher_username db = (inl invalid_credential, db).
Proof.
  intros Ht Hf. unfold update_announcement. pass_auth Ht Hf. reflexivity.
Qed.

Lemma update_bad_id :
  authenticated teacher_username db ->
  ObjectId_of_str announcement_id = None ->
  update_announcement fromisoformat announcement_id message expiration_date
    start_date teacher_username db = (inl invalid_id, db).
Proof.
  intros [Ht Hf] Hid. unfold update_announcement. pass_auth Ht Hf.
  rewrite Hid. reflexivity.
Qed.

Lemma update_not_found (obj_id : ObjectId) :
  authenticated teacher_username db ->
  ObjectId_of_str announcement_id = Some obj_id ->
  find_one (Field "_id" (VObjectId obj_id)) (announcements db) = None ->
  update_announcement fromisoformat announcement_id message expiration_date
    start_date teacher_username db = (inl not_found, db).
Proof.
  intros [Ht Hf] Hid Hnone. unfold update_announcement. pass_auth Ht Hf.
  rewrite Hid. unfold bind at 1, find_one_ at 1. cbn [get]. cbv beta iota.
  rewrite Hnone. reflexivity.
Qed.

Lemma update_bad_dates (obj_id : ObjectId) (old : Document) :
  authenticated teacher_username db ->
  ObjectId_of_str announcement_id = Some obj_id ->
  find_one (Field "_id" (VObjectId obj_id)) (announcements db) = Some old ->
  dates_parse fromisoformat expiration_date start_date = false ->
  update_announcement fromisoformat announcement_id message expiration_date
    start_date teacher_username db = (inl invalid_date, db).
Proof.
  intros [Ht Hf] Hid Hold Hd. unfold update_announcement. pass_auth Ht Hf.
  rewrite Hid. unfold bind at 1, find_one_ at 1. cbn [get]. cbv beta iota.
  rewrite Hold.
  assert (Hfound : found (Some old) = true)
    by (eapply AuthFacts.found_by_id; [|exact Hold]; discriminate).
  rewrite Hfound.
  cbn [negb]. cbv beta iota. rewrite Hd. reflexivity.
Qed.

(** Past the checks, the update goes through. *)
Lemma update_stores (obj_id : ObjectId) (old : Document) :
  authenticated teacher_username db ->
  ObjectId_of_str announcement_id = Some obj_id ->
  find_one (Field "_id" (VObjectId obj_id)) (announcements db) = Some old ->
  dates_parse fromisoformat expiration_date start_date = true ->
  update_announcement fromisoformat announcement_id message expiration_date
    start_date teacher_username db =
  let new := updated_record old message expiration_date start_date in
  (inr (<["_id" := VStr (hexlify obj_id)]> new),
   {| announcements :=
        replace_first (Field "_id" (VObjectId obj_id)) new (announcements db);
      teachers := teachers db |}).
Proof.
  intros [Ht Hf] Hid Hold Hd. unfold update_announcement. pass_auth Ht Hf.
  rewrite Hid. unfold bind at 1, find_one_ at 1. cbn [get]. cbv beta iota.
  rewrite Hold.
  assert (Hfound : found (Some old) = true)
    by (eapply AuthFacts.found_by_id; [|exact Hold]; discriminate).
  rewrite Hfound.
  cbn [negb]. cbv beta iota. rewrite Hd. cbn [negb]. cbv beta iota zeta.
  pose proof (MongoFacts.find_one_some _ _ _ Hold) as [_ Hm].
  assert (Hnew : matches (Field "_id" (VObjectId obj_id))
                   (updated_record old message expiration_date start_date)
                 = true).
  { apply MongoFacts.matches_id. rewrite field_id_updated.
    now apply MongoFacts.matches_id. }
  unfold updated_record in *.
  destruct (truthy start_date) eqn:Hs.
  - unfold bind at 1. unfold ret at 1. cbv beta iota.
    unfold bind at 1, update_one_ at 1. cbn [get]. cbv beta iota zeta.
    rewrite (update_one_found _ _ _ _ Hold). cbn [fst snd put].
    cbn [matched_count modified_count Nat.eqb]. rewrite andb_false_r.
    cbv beta iota.
    unfold bind at 1, find_one_ at 1. cbn [get announcements]. cbv beta iota.
    cbn [app apply_update fold_left fst snd].
    rewrite (find_one_replace_first _ _ _ _ Hold Hnew).
    unfold bind, getitem.
    rewrite (lookup_id _ obj_id); [reflexivity|].
    now apply MongoFacts.matches_id.
  - assert (Hunset : matches (Field "_id" (VObjectId obj_id))
                       (delete "start_date" old) = true).
    { apply MongoFacts.matches_id. rewrite field_id_unset.
      now apply MongoFacts.matches_id. }
    pose proof (find_one_replace_first _ _ _ _ Hold Hunset) as Hold'.
    cbn [default app]. unfold bind, update_one_, find_one_, ret.
    cbn [get put announcements teachers]. cbv beta iota zeta. unfold id.
    destruct (old !! "start_date") as [v|] eqn:Hsd.
    + rewrite bool_decide_eq_true_2 by eauto.
      rewrite (update_one_found _ (Unset _) _ _ Hold).
      cbn [fst snd apply_update fold_left announcements teachers].
      rewrite (update_one_found _ (Set_ _) _ _ Hold').
      cbn [fst snd apply_update fold_left announcements teachers
           matched_count modified_count Nat.eqb].
      rewrite andb_false_r. cbv beta iota.
      rewrite (replace_first_twice _ _ _ _ Hunset). cbn [announcements].
      rewrite (find_one_replace_first _ _ _ _ Hold Hnew).
      unfold getitem. rewrite (lookup_id _ obj_id); [reflexivity|].
      now apply MongoFacts.matches_id.
    + rewrite bool_decide_eq_false_2 by apply is_Some_None.
      rewrite (delete_id _ _ Hsd) in *.
      rewrite (update_one_found _ (Set_ _) _ _ Hold).
      cbn [fst snd apply_update fold_left announcements teachers
           matched_count modified_count Nat.eqb].
      rewrite andb_false_r. cbv beta iota. cbn [announcements].
      rewrite (find_one_replace_first _ _ _ _ Hold Hnew).
      unfold getitem. rewrite (lookup_id _ obj_id); [reflexivity|].
      now apply MongoFacts.matches_id.
Qed.

(** Every way [update_announcement] can end. *)
Lemma update_cases :
  (exists e,
     update_announcement fromisoformat announcement_id message expiration_date
       start_date teacher_username db = (inl e, db)
     /\ In e [missing_credential; invalid_credential; invalid_id; not_found;
              invalid_date])
  \/ (exists obj_id old,
        authenticated teacher_username db
        /\ ObjectId_of_str announcement_id = Some obj_id
        /\ find_one (Field "_id" (VObjectId obj_id)) (announcements db)
           = Some old
        /\ dates_parse fromisoformat expiration_date start_date = true
        /\ update_announcement fromisoformat announcement_id message
             expiration_date start_date teacher_username db =
           (inr (<["_id" := VStr (hexlify obj_id)]>
                   (updated_record old message expiration_date start_date)),
            {| announcements :=
                 replace_first (Field "_id" (VObjectId obj_id))
                   (updated_record old message expiration_date start_date)
                   (announcements db);
               teachers := teachers db |})).
Proof.
  destruct (truthy teacher_username) eqn:Ht;
    [|left; eexists; split; [now apply update_missing|simpl; tauto]].
  destruct (found (find_one (Field "_id" (of_optional teacher_username))
                     (teachers db))) eqn:Hf;
    [|left; eexists; split; [now apply update_invalid|simpl; tauto]].
  assert (Ha : authenticated teacher_username db) by (split; assumption).
  destruct (ObjectId_of_str announcement_id) as [obj_id|] eqn:Hid;
    [|left; eexists; split; [now apply update_bad_id|simpl; tauto]].
  destruct (find_one (Field "_id" (VObjectId obj_id)) (announcements db))
    as [old|] eqn:Hold;
    [|left; eexists; split; [now apply (update_not_found obj_id)|simpl; tauto]].
  destruct (dates_parse fromisoformat expiration_date start_date) eqn:Hd;
    [|left; eexists; split;
      [now apply (update_bad_dates obj_id old)|simpl; tauto]].
  right. exists obj_id, old.
  repeat (split; [first [assumption|reflexivity]|]).
  now apply update_stores.
Qed.

End Update.

Section Delete.

Variable announcement_id : string.
Variable teacher_username : option string.
Variable db : DB.

Lemma delete_bad_id :
  authenticated teacher_username db ->
  ObjectId_of_str announcement_id = None ->
  delete_announcement announcement_id teacher_username db
  = (inl invalid_id, db).
Proof.
  intros [Ht Hf] Hid. unfold delete_announcement. pass_auth Ht Hf.
  rewrite Hid. reflexivity.
Qed.

Lemma delete_not_found (obj_id : ObjectId) :
  authenticated teacher_username db ->
  ObjectId_of_str announcement_id = Some obj_id ->
  find_one (Field "_id" (VObjectId obj_id)) (announcements db) = None ->
  delete_announcement announcement_id teacher_username db
  = (inl not_found, db).
Proof.
  intros [Ht Hf] Hid Hnone. unfold delete_announcement. pass_auth Ht Hf.
  rewrite Hid. unfold bind, delete_one_. cbn [get]. cbv beta iota zeta.
  rewrite (delete_one_missing _ _ Hnone). cbn [fst snd deleted_count Nat.eqb].
  now rewrite (put_same announcements_collection).
Qed.

Lemma delete_removes (obj_id : ObjectId) (d : Document) :
  authenticated teacher_username db ->
  ObjectId_of_str announcement_id = Some obj_id ->
  find_one (Field "_id" (VObjectId obj_id)) (announcements db) = Some d ->
  delete_announcement announcement_id teacher_username db
  = (inr confirmation,
     {| announcements :=
          (delete_one (Field "_id" (VObjectId obj_id)) (announcements db)).1;
        teachers := teachers db |}).
Proof.
  intros [Ht Hf] Hid Hsome. unfold delete_announcement. pass_auth Ht Hf.
  rewrite Hid. unfold bind, delete_one_. cbn [get]. cbv beta iota zeta.
  rewrite (delete_one_found _ _ _ Hsome). reflexivity.
Qed.

End Delete.

End UpdateFacts.

(** ** Well-formedness of the announcements is an invariant *)

Module Invariant.
Import Bson Mongo PyStr PyDatetime PyBson Announcements Spec.
Import HandlerFacts StoreFacts UpdateFacts.

Lemma wf_split (coll : list Document) :
  wf coll = true <->
  forallb has_id coll = true /\ distinct (ids coll) = true.
Proof. unfold wf. apply andb_true_iff. Qed.

Lemma distinct_snoc (vs : list Value) (v : Value) :
  distinct vs = true ->
  existsb (fun w => bool_decide (w = v)) vs = false ->
  distinct (vs ++ [v]) = true.
Proof.
  induction vs as [|a vs IH]; [reflexivity|].
  cbn [distinct existsb app]. intros Hd Hv.
  apply andb_true_iff in Hd. destruct Hd as [Ha Hd].
  apply orb_false_iff in Hv. destruct Hv as [Hav Hv].
  rewrite (IH Hd Hv), andb_true_r. apply negb_true_iff.
  rewrite existsb_app. apply negb_true_iff in Ha. rewrite Ha.
  cbn [existsb orb]. rewrite orb_false_r.
  apply bool_decide_eq_false. apply bool_decide_eq_false in Hav. congruence.
Qed.

Lemma insert_wf (coll : list Document) (doc : Document) (v : Value) :
  wf coll = true ->
  existsb (fun d => bool_decide (field d "_id" = v)) coll = false ->
  wf (coll ++ [<["_id" := v]> doc]) = true.
Proof.
  rewrite !wf_split. intros [Hi Hd] Hnew. split.
  - rewrite forallb_app, Hi. cbn [forallb]. unfold has_id.
    rewrite lookup_insert_eq. reflexivity.
  - unfold ids in *. rewrite map_app. cbn [map].
    replace (field (<["_id" := v]> doc) "_id") with v
      by (unfold field; now rewrite lookup_insert_eq).
    apply distinct_snoc; [exact Hd|].
    assert (Hmap : existsb (fun w => bool_decide (w = v))
                     (map (fun d : Document => field d "_id") coll)
                   = existsb (fun d => bool_decide (field d "_id" = v)) coll).
    { clear. induction coll as [|a coll IH]; [reflexivity|].
      cbn [map existsb]. now rewrite IH. }
    now rewrite Hmap.
Qed.

Lemma replace_first_wf (v : Value) (new : Document) (coll : list Document) :
  v <> VNull ->
  field new "_id" = v ->
  wf coll = true ->
  wf (replace_first (Field "_id" v) new coll) = true.
Proof.
  intros Hv Hnew. rewrite !wf_split. intros [Hi Hd].
  assert (Hids : ids (replace_first (Field "_id" v) new coll) = ids coll).
  { clear Hi Hd. induction coll as [|a coll IH]; [reflexivity|].
    cbn [replace_first]. destruct (matches (Field "_id" v) a) eqn:Ha.
    - apply MongoFacts.matches_id in Ha. unfold ids. cbn [map]. congruence.
    - unfold ids in *. cbn [map]. now rewrite IH. }
  split; [|now rewrite Hids].
  clear Hd Hids. induction coll as [|a coll IH]; [reflexivity|].
  cbn [forallb] in Hi. apply andb_true_iff in Hi. destruct Hi as [Ha Hi].
  cbn [replace_first]. destruct (matches (Field "_id" v) a); cbn [forallb].
  - rewrite Hi, andb_true_r. unfold has_id. apply bool_decide_eq_true.
    unfold field in Hnew. destruct (new !! "_id"); [eauto|].
    simpl in Hnew. congruence.
  - now rewrite Ha, (IH Hi).
Qed.

(** X15: well-formedness is an invariant of the announcements: whatever
    create, update or delete is asked and however it ends, a store in
    which every document has an [_id] and no two share one is left in
    that state. *)
Lemma store_stays_well_formed (fromisoformat : string -> option datetime)
    (utcnow : datetime) (new_id : ObjectId)
    (announcement_id message expiration_date : string)
    (start_date teacher_username : option string) (db : DB) :
  wf (announcements db) = true ->
  wf (announcements
        (create_announcement fromisoformat utcnow new_id message
           expiration_date start_date teacher_username db).2) = true
  /\ wf (announcements
          (update_announcement fromisoformat announcement_id message
             expiration_date start_date teacher_username db).2) = true
  /\ wf (announcements
          (delete_announcement announcement_id teacher_username db).2) = true.
Proof.
  intros Hwf. split; [|split].
  - destruct (truthy teacher_username) eqn:Ht;
      [|now rewrite create_missing].
    destruct (found (find_one (Field "_id" (of_optional teacher_username))
                       (teachers db))) eqn:Hf;
      [|now rewrite create_invalid].
    assert (Ha : authenticated teacher_username db) by (split; assumption).
    destruct (dates_parse fromisoformat expiration_date start_date) eqn:Hd;
      [|now rewrite create_bad_dates].
    destruct teacher_username as [u|]; [|discriminate].
    rewrite (create_inserts _ _ _ _ _ _ _ _ u eq_refl Ha Hd). cbv zeta.
    destruct (existsb _ _) eqn:Hnew; [exact Hwf|].
    cbn [snd announcements]. now apply insert_wf.
  - destruct (update_cases fromisoformat announcement_id message
                expiration_date start_date teacher_username db)
      as [(e & -> & _)|(obj_id & old & _ & _ & Hold & _ & ->)];
      [exact Hwf|].
    cbn [snd announcements]. apply replace_first_wf;
      [discriminate| |exact Hwf].
    rewrite field_id_updated.
    now apply MongoFacts.matches_id, (MongoFacts.find_one_some _ _ _ Hold).
  - destruct (truthy teacher_username) eqn:Ht;
      [|now rewrite delete_missing].
    destruct (found (find_one (Field "_id" (of_optional teacher_username))
                       (teachers db))) eqn:Hf;
      [|now rewrite delete_invalid].
    assert (Ha : authenticated teacher_username db) by (split; assumption).
    destruct (ObjectId_of_str announcement_id) as [obj_id|] eqn:Hid;
      [|now rewrite delete_bad_id].
    destruct (find_one (Field "_id" (VObjectId obj_id)) (announcements db))
      as [d|] eqn:Hd.
    + rewrite (delete_removes _ _ _ obj_id d Ha Hid Hd).
      cbn [snd announcements]. now apply delete_one_wf.
    + now rewrite (delete_not_found _ _ _ obj_id Ha Hid Hd).
Qed.

Lemma store_stays_well_formed_witness :
  wf (announcements Sample.school) = true
  /\ wf (announcements
          (create_announcement fromisoformat Sample.midnight Sample.oid_a
             "Science fair moved" "2030-06-01" None (Some "mrodriguez")
             Sample.school).2) = true
  /\ wf (announcements
          (update_announcement fromisoformat Sample.hex_b "Science fair moved"
             "2030-06-01" None (Some "mrodriguez") Sample.school).2) = true
  /\ wf (announcements
          (delete_announcement Sample.hex_b (Some "mrodriguez")
             Sample.school).2) = true.
Proof.
  assert (Hwf : wf (announcements Sample.school) = true)
    by (vm_compute; reflexivity).
  split; [exact Hwf|].
  exact (store_stays_well_formed fromisoformat Sample.midnight Sample.oid_a
           Sample.hex_b "Science fair moved" "2030-06-01" None
           (Some "mrodriguez") Sample.school Hwf).
Defined.

End Invariant.

(** ** The claims about the teacher-only operations *)

Module TeacherOnly.
Import Bson Mongo PyStr PyDatetime PyBson Announcements Spec.
Import HandlerFacts StoreFacts UpdateFacts.



Lemma unparsed_dates (fromisoformat : string -> option datetime)
    (expiration_date : string) (start_date : option string) :
  unparsed fromisoformat expiration_date
  \/ (exists s, start_date = Some s /\ s <> "" /\ unparsed fromisoformat s) ->
  dates_parse fromisoformat expiration_date start_date = false.
Proof.
  unfold unparsed, dates_parse. intros [H|(s & Hsd & Hs & Hnone)].
  - now rewrite H.
  - subst start_date.
    destruct (fromisoformat (replace "Z" "+00:00" expiration_date));
      [|reflexivity].
    rewrite (AuthFacts.truthy_some s Hs).
    change (default "" (Some s)) with s. now rewrite Hnone.
Qed.




Ltac map_lookup :=
  repeat first
    [ rewrite lookup_insert_eq
    | rewrite lookup_insert_ne by discriminate
    | rewrite lookup_delete_eq
    | rewrite lookup_delete_ne by discriminate
    | rewrite lookup_singleton_eq
    | rewrite lookup_singleton_ne by discriminate ].

(** What the document of a new announcement holds. *)
Lemma new_record_fields (utcnow : datetime) (message expiration_date : string)
    (start_date : option string) (u : string) :
  let record := new_record utcnow message expiration_date start_date u in
  record !! "message" = Some (VStr message)
  /\ record !! "expiration_date" = Some (VStr expiration_date)
  /\ record !! "created_by" = Some (VStr u)
  /\ record !! "created_at" = Some (VStr (isoformat utcnow))
  /\ record !! "start_date"
     = match start_date with
       | Some s => if String.eqb s "" then None else Some (VStr s)
       | None => None
       end
  /\ forall k, is_Some (record !! k) ->
       In k ["message"; "expiration_date"; "created_by"; "created_at";
             "start_date"].
Proof.
  unfold new_record. cbv zeta.
  assert (Hkeys : forall (k : string) (P : Prop),
            (k = "start_date" -> P) -> (k = "message" -> P) ->
            (k = "expiration_date" -> P) -> (k = "created_by" -> P) ->
            (k = "created_at" -> P) ->
            (k <> "start_date" -> k <> "message" -> k <> "expiration_date" ->
             k <> "created_by" -> k <> "created_at" -> P) -> P).
  { intros k P H1 H2 H3 H4 H5 H6.
    destruct (decide (k = "start_date")); [auto|].
    destruct (decide (k = "message")); [auto|].
    destruct (decide (k = "expiration_date")); [auto|].
    destruct (decide (k = "created_by")); [auto|].
    destruct (decide (k = "created_at")); auto. }
  destruct start_date as [s|]; cbn [truthy];
    [destruct (String.eqb s "")|]; cbn [negb of_optional];
    (repeat split; [map_lookup; reflexivity ..|]);
    intros k [v Hk]; apply (Hkeys k);
    try (intros ->; simpl; tauto);
    intros N1 N2 N3 N4 N5;
    repeat (rewrite lookup_insert_ne in Hk by congruence);
    rewrite lookup_singleton_ne in Hk by congruence; discriminate.
Qed.

(** C6: a create that succeeds appends one record to the announcements
    and leaves the teachers alone.  The record carries the generated
    identifier, the requesting teacher as [created_by], the time string of
    [utcnow()] as [created_at], the given [message] and [expiration_date],
    a [start_date] exactly when a non-empty one was supplied, and nothing
    else; the response is that record with the identifier as a string. *)
Theorem create_persists (fromisoformat : string -> option datetime)
    (utcnow : datetime) (new_id : ObjectId) (message expiration_date : string)
    (start_date teacher_username : option string) (db db' : DB)
    (created : Document) :
  create_announcement fromisoformat utcnow new_id message expiration_date
    start_date teacher_username db = (inr created, db') ->
  exists u record,
    teacher_username = Some u
    /\ announcements db'
       = announcements db ++ [<["_id" := VObjectId new_id]> record]
    /\ teachers db' = teachers db
    /\ created = <["_id" := VStr (hexlify new_id)]> record
    /\ record !! "message" = Some (VStr message)
    /\ record !! "expiration_date" = Some (VStr expiration_date)
    /\ record !! "created_by" = Some (VStr u)
    /\ record !! "created_at" = Some (VStr (isoformat utcnow))
    /\ record !! "start_date"
       = match start_date with
         | Some s => if String.eqb s "" then None else Some (VStr s)
         | None => None
         end
    /\ forall k, is_Some (record !! k) ->
         In k ["message"; "expiration_date"; "created_by"; "created_at";
               "start_date"].
Proof.
  intros H.
  destruct (truthy teacher_username) eqn:Ht;
    [|rewrite create_missing in H by assumption; discriminate].
  destruct (found (find_one (Field "_id" (of_optional teacher_username))
                     (teachers db))) eqn:Hf;
    [|rewrite create_invalid in H by assumption; discriminate].
  assert (Ha : authenticated teacher_username db) by (split; assumption).
  destruct (dates_parse fromisoformat expiration_date start_date) eqn:Hd;
    [|rewrite create_bad_dates in H by assumption; discriminate].
  destruct teacher_username as [u|]; [|discriminate].
  rewrite (create_inserts _ _ _ _ _ _ _ _ u eq_refl Ha Hd) in H.
  cbv zeta in H. destruct (existsb _ _); [discriminate|].
  injection H as <- <-.
  exists u, (new_record utcnow message expiration_date start_date u).
  split; [reflexivity|]. split; [reflexivity|]. split; [reflexivity|].
  split; [reflexivity|]. apply new_record_fields.
Qed.

Lemma create_persists_witness :
  create_announcement fromisoformat Sample.december Sample.oid_a
    "Exchange visit" "2024-01-01T03:00:00+05:00" None (Some "mrodriguez")
    Sample.empty_school
  = (inr (<["_id" := VStr Sample.hex_a]> Sample.abroad), Sample.school_abroad)
  /\ exists u record,
       Some "mrodriguez" = Some u
       /\ announcements Sample.school_abroad
          = announcements Sample.empty_school
            ++ [<["_id" := VObjectId Sample.oid_a]> record]
       /\ teachers Sample.school_abroad = teachers Sample.empty_school
       /\ <["_id" := VStr Sample.hex_a]> Sample.abroad
          = <["_id" := VStr (hexlify Sample.oid_a)]> record
       /\ record !! "message" = Some (VStr "Exchange visit")
       /\ record !! "expiration_date" = Some (VStr "2024-01-01T03:00:00+05:00")
       /\ record !! "created_by" = Some (VStr u)
       /\ record !! "created_at" = Some (VStr (isoformat Sample.december))
       /\ record !! "start_date" = None
       /\ forall k, is_Some (record !! k) ->
            In k ["message"; "expiration_date"; "created_by"; "created_at";
                  "start_date"].
Proof.
  assert (H : create_announcement fromisoformat Sample.december Sample.oid_a
                "Exchange visit" "2024-01-01T03:00:00+05:00" None
                (Some "mrodriguez") Sample.empty_school
              = (inr (<["_id" := VStr Sample.hex_a]> Sample.abroad),
                 Sample.school_abroad)).
  { rewrite (create_inserts fromisoformat _ _ _ _ _ _ _ "mrodriguez" eq_refl).
    - reflexivity.
    - apply authenticated_known, AuthFacts.sample_teacher_known; reflexivity.
    - vm_compute; reflexivity. }
  split; [exact H|].
  exact (create_persists fromisoformat Sample.december Sample.oid_a
           "Exchange visit" "2024-01-01T03:00:00+05:00" None
           (Some "mrodriguez") Sample.empty_school Sample.school_abroad
           (<["_id" := VStr Sample.hex_a]> Sample.abroad) H).
Defined.

(** What an updated record holds. *)
Lemma updated_record_fields (old : Document) (message expiration_date : string)
    (start_date : option string) :
  let record := updated_record old message expiration_date start_date in
  record !! "message" = Some (VStr message)
  /\ record !! "expiration_date" = Some (VStr expiration_date)
  /\ record !! "start_date"
     = match start_date with
       | Some s => if String.eqb s "" then None else Some (VStr s)
       | None => None
       end
  /\ forall k, ~ In k ["message"; "expiration_date"; "start_date"] ->
       record !! k = old !! k.
Proof.
  unfold updated_record. cbv zeta.
  destruct start_date as [s|]; cbn [truthy];
    [destruct (String.eqb s "")|]; cbn [negb of_optional];
    (repeat split; [map_lookup; reflexivity ..|]);
    intros k Hk; simpl in Hk;
    repeat (rewrite lookup_insert_ne by tauto);
    try (rewrite lookup_delete_ne by tauto); reflexivity.
Qed.



(** C8: a delete by an authenticated teacher is answered 400 "Invalid
    announcement ID format" when the identifier is not a store key; when
    it is one and no record carries it the store is left as it was and the
    answer is 404 "Announcement not found"; when a record carries it that
    record is removed, the others stay, the answer is the confirmation, and
    on a well-formed store the identifier then matches nothing, so that
    deleting it again is answered 404. *)
Theorem delete_outcomes (announcement_id : string)
    (teacher_username : option string) (db : DB) :
  authenticated teacher_username db ->
  (ObjectId_of_str announcement_id = None ->
   delete_announcement announcement_id teacher_username db
   = (inl invalid_id, db))
  /\ forall obj_id,
       ObjectId_of_str announcement_id = Some obj_id ->
       (find_one (Field "_id" (VObjectId obj_id)) (announcements db) = None ->
        delete_announcement announcement_id teacher_username db
        = (inl not_found, db))
       /\ forall d,
            find_one (Field "_id" (VObjectId obj_id)) (announcements db)
            = Some d ->
            exists db',
              delete_announcement announcement_id teacher_username db
              = (inr confirmation, db')
              /\ teachers db' = teachers db
              /\ length (announcements db) = S (length (announcements db'))
              /\ (forall x, In x (announcements db') ->
                    In x (announcements db))
              /\ (forall x, In x (announcements db) ->
                    field x "_id" <> VObjectId obj_id ->
                    In x (announcements db'))
              /\ (wf (announcements db) = true ->
                  find_one (Field "_id" (VObjectId obj_id)) (announcements db')
                  = None
                  /\ delete_announcement announcement_id teacher_username db'
                     = (inl not_found, db')).
Proof.
  intros Ha. split; [now apply delete_bad_id|].
  intros obj_id Hid. split; [now apply delete_not_found|].
  intros d Hd. eexists. split; [now apply (delete_removes _ _ _ obj_id d)|].
  cbn [announcements teachers].
  split; [reflexivity|]. split; [now apply (delete_one_length _ _ d)|].
  split; [intros x; apply delete_one_subset|]. split.
  - intros x Hx Hne. apply delete_one_keeps; [exact Hx|].
    destruct (matches _ x) eqn:Hm; [|reflexivity].
    now apply MongoFacts.matches_id in Hm.
  - intros Hwf.
    assert (Hgone : find_one (Field "_id" (VObjectId obj_id))
                      (delete_one (Field "_id" (VObjectId obj_id))
                         (announcements db)).1 = None).
    { apply delete_one_gone. unfold wf in Hwf.
      apply andb_true_iff in Hwf. apply Hwf. }
    split; [exact Hgone|].
    apply (delete_not_found _ _ _ obj_id); [exact Ha|exact Hid|exact Hgone].
Qed.

Lemma delete_outcomes_witness :
  authenticated (Some "mrodriguez") Sample.school
  /\ ObjectId_of_str "not-a-valid-id" = None
  /\ delete_announcement "not-a-valid-id" (Some "mrodriguez") Sample.school
     = (inl invalid_id, Sample.school)
  /\ ObjectId_of_str Sample.hex_a = Some Sample.oid_a
  /\ find_one (Field "_id" (VObjectId Sample.oid_a))
       (announcements Sample.school) = Some Sample.closing
  /\ wf (announcements Sample.school) = true
  /\ exists db',
       delete_announcement Sample.hex_a (Some "mrodriguez") Sample.school
       = (inr confirmation, db')
       /\ find_one (Field "_id" (VObjectId Sample.oid_a)) (announcements db')
          = None
       /\ delete_announcement Sample.hex_a (Some "mrodriguez") db'
          = (inl not_found, db').
Proof.
  assert (Ha : authenticated (Some "mrodriguez") Sample.school)
    by (apply authenticated_known, AuthFacts.sample_teacher_known; reflexivity).
  assert (Hbad : ObjectId_of_str "not-a-valid-id" = None)
    by (vm_compute; reflexivity).
  assert (Hid : ObjectId_of_str Sample.hex_a = Some Sample.oid_a)
    by (vm_compute; reflexivity).
  assert (Hclosing : matches (Field "_id" (VObjectId Sample.oid_a))
                       Sample.closing = true)
    by (vm_compute; reflexivity).
  assert (Hd : find_one (Field "_id" (VObjectId Sample.oid_a))
                 (announcements Sample.school) = Some Sample.closing).
  { unfold find_one. cbn [Sample.school announcements List.find].
    now rewrite Hclosing. }
  assert (Hwf : wf (announcements Sample.school) = true)
    by (vm_compute; reflexivity).
  split; [exact Ha|]. split; [exact Hbad|].
  split; [exact (proj1 (delete_outcomes "not-a-valid-id" (Some "mrodriguez")
                          Sample.school Ha) Hbad)|].
  split; [exact Hid|]. split; [exact Hd|]. split; [exact Hwf|].
  destruct (proj2 (proj2 (delete_outcomes Sample.hex_a (Some "mrodriguez")
                            Sample.school Ha) Sample.oid_a Hid)
              Sample.closing Hd)
    as (db' & Hdel & _ & _ & _ & _ & Hagain).
  exists db'. split; [exact Hdel|]. exact (Hagain Hwf).
Defined.

(** C9: [update_announcement] never answers 500: the branch that raises
    "Failed to update announcement" is dead.  Once the record has been
    found the final [update_one] matches it, and a request that passes
    the checks before it returns the updated record. *)
Theorem update_never_internal_error
    (fromisoformat : string -> option datetime)
    (announcement_id message expiration_date : string)
    (start_date teacher_username : option string) (db : DB) :
  (forall detail,
     (update_announcement fromisoformat announcement_id message expiration_date
        start_date teacher_username db).1
     <> inl (HTTPException 500 detail))
  /\ forall obj_id old,
       authenticated teacher_username db ->
       ObjectId_of_str announcement_id = Some obj_id ->
       find_one (Field "_id" (VObjectId obj_id)) (announcements db) = Some old ->
       dates_parse fromisoformat expiration_date start_date = true ->
       (forall u coll,
          find_one (Field "_id" (VObjectId obj_id)) coll <> None ->
          matched_count (update_one (Field "_id" (VObjectId obj_id)) u coll).2
          = 1%nat)
       /\ exists updated db',
            update_announcement fromisoformat announcement_id message
              expiration_date start_date teacher_username db
            = (inr updated, db').
Proof.
  split.
  - intros detail.
    destruct (update_cases fromisoformat announcement_id message
                expiration_date start_date teacher_username db)
      as [(e & -> & He)|(obj_id & old & _ & _ & _ & _ & ->)];
      [|discriminate].
    cbn [fst]. simpl in He.
    destruct He as [<-|[<-|[<-|[<-|[<-|[]]]]]]; discriminate.
  - intros obj_id old Ha Hid Hold Hd. split.
    + intros u coll Hsome.
      destruct (find_one (Field "_id" (VObjectId obj_id)) coll) as [d|] eqn:E;
        [|congruence].
      now rewrite (update_one_found _ u _ _ E).
    + eexists _, _. now apply (update_stores _ _ _ _ _ _ _ obj_id old).
Qed.

Lemma update_never_internal_error_witness :
  authenticated (Some "mrodriguez") Sample.school
  /\ ObjectId_of_str Sample.hex_b = Some Sample.oid_b
  /\ find_one (Field "_id" (VObjectId Sample.oid_b))
       (announcements Sample.school) = Some Sample.fair
  /\ dates_parse fromisoformat "2030-06-01" None = true
  /\ exists updated db',
       update_announcement fromisoformat Sample.hex_b "Science fair moved"
         "2030-06-01" None (Some "mrodriguez") Sample.school
       = (inr updated, db').
Proof.
  assert (Ha : authenticated (Some "mrodriguez") Sample.school)
    by (apply authenticated_known, AuthFacts.sample_teacher_known; reflexivity).
  assert (Hid : ObjectId_of_str Sample.hex_b = Some Sample.oid_b)
    by (vm_compute; reflexivity).
  assert (Hclosing : matches (Field "_id" (VObjectId Sample.oid_b))
                       Sample.closing = false)
    by (vm_compute; reflexivity).
  assert (Hfair : matches (Field "_id" (VObjectId Sample.oid_b)) Sample.fair
                  = true)
    by (vm_compute; reflexivity).
  assert (Hold : find_one (Field "_id" (VObjectId Sample.oid_b))
                   (announcements Sample.school) = Some Sample.fair).
  { unfold find_one. cbn [Sample.school announcements List.find].
    now rewrite Hclosing, Hfair. }
  assert (Hd : dates_parse fromisoformat "2030-06-01" None = true)
    by (vm_compute; reflexivity).
  split; [exact Ha|]. split; [exact Hid|]. split; [exact Hold|].
  split; [exact Hd|].
  exact (proj2 (proj2 (update_never_internal_error fromisoformat Sample.hex_b
                         "Science fair moved" "2030-06-01" None
                         (Some "mrodriguez") Sample.school)
                  Sample.oid_b Sample.fair Ha Hid Hold Hd)).
Defined.

End TeacherOnly.

(** ** String order against chronology *)

Module Chronology.
Import Bson Mongo PyStr PyDatetime PyBson Announcements Spec.
Import ListingFacts HandlerFacts.


End Chronology.

(** ** Every way create and delete can end *)

Module OutcomeFacts.
Import Bson Mongo PyStr PyDatetime PyBson Announcements Spec.
Import HandlerFacts StoreFacts UpdateFacts.

Lemma loop_state (cursor acc : list Document) (db : DB) :
  (for_announcement_in cursor acc db).2 = db.
Proof.
  revert acc. induction cursor as [|d cursor IH]; intros acc; [reflexivity|].
  cbn [for_announcement_in]. unfold bind, getitem.
  destruct (d !! "_id"); [apply IH|reflexivity].
Qed.

Lemma create_cases (fromisoformat : string -> option datetime)
    (utcnow : datetime) (new_id : ObjectId) (message expiration_date : string)
    (start_date teacher_username : option string) (db : DB) :
  (exists e,
     create_announcement fromisoformat utcnow new_id message expiration_date
       start_date teacher_username db = (inl e, db)
     /\ In e [missing_credential; invalid_credential; invalid_date;
              DuplicateKeyError])
  \/ (exists u,
        teacher_username = Some u
        /\ authenticated teacher_username db
        /\ dates_parse fromisoformat expiration_date start_date = true
        /\ existsb (fun d => bool_decide (field d "_id" = VObjectId new_id))
             (announcements db) = false
        /\ create_announcement fromisoformat utcnow new_id message
             expiration_date start_date teacher_username db =
           (inr (<["_id" := VStr (hexlify new_id)]>
                   (new_record utcnow message expiration_date start_date u)),
            {| announcements :=
                 announcements db
                 ++ [<["_id" := VObjectId new_id]>
                       (new_record utcnow message expiration_date start_date u)];
               teachers := teachers db |})).
Proof.
  destruct (truthy teacher_username) eqn:Ht;
    [|left; eexists; split; [now apply create_missing|simpl; tauto]].
  destruct (found (find_one (Field "_id" (of_optional teacher_username))
                     (teachers db))) eqn:Hf;
    [|left; eexists; split; [now apply create_invalid|simpl; tauto]].
  assert (Ha : authenticated teacher_username db) by (split; assumption).
  destruct (dates_parse fromisoformat expiration_date start_date) eqn:Hd;
    [|left; eexists; split; [now apply create_bad_dates|simpl; tauto]].
  destruct teacher_username as [u|]; [|discriminate].
  pose proof (create_inserts fromisoformat utcnow new_id message
                expiration_date start_date (Some u) db u eq_refl Ha Hd) as H.
  cbv zeta in H.
  destruct (existsb _ _) eqn:Hnew.
  - left. eexists. split; [exact H|simpl; tauto].
  - right. exists u. repeat (split; [first [assumption|reflexivity]|]).
    exact H.
Qed.

Lemma delete_cases (announcement_id : string)
    (teacher_username : option string) (db : DB) :
  (exists e,
     delete_announcement announcement_id teacher_username db = (inl e, db)
     /\ In e [missing_credential; invalid_credential; invalid_id; not_found])
  \/ (exists obj_id d,
        authenticated teacher_username db
        /\ ObjectId_of_str announcement_id = Some obj_id
        /\ find_one (Field "_id" (VObjectId obj_id)) (announcements db)
           = Some d
        /\ delete_announcement announcement_id teacher_username db =
           (inr confirmation,
            {| announcements :=
                 (delete_one (Field "_id" (VObjectId obj_id))
                    (announcements db)).1;
               teachers := teachers db |})).
Proof.
  destruct (truthy teacher_username) eqn:Ht;
    [|left; eexists; split; [now apply delete_missing|simpl; tauto]].
  destruct (found (find_one (Field "_id" (of_optional teacher_username))
                     (teachers db))) eqn:Hf;
    [|left; eexists; split; [now apply delete_invalid|simpl; tauto]].
  assert (Ha : authenticated teacher_username db) by (split; assumption).
  destruct (ObjectId_of_str announcement_id) as [obj_id|] eqn:Hid;
    [|left; eexists; split; [now apply delete_bad_id|simpl; tauto]].
  destruct (find_one (Field "_id" (VObjectId obj_id)) (announcements db))
    as [d|] eqn:Hd.
  - right. exists obj_id, d.
    repeat (split; [first [assumption|reflexivity]|]).
    now apply (delete_removes _ _ _ obj_id d).
  - left. eexists. split; [now apply (delete_not_found _ _ _ obj_id)|].
    simpl; tauto.
Qed.

Lemma get_all_state (teacher_username : option string) (db : DB) :
  (get_all_announcements teacher_username db).2 = db.
Proof.
  unfold get_all_announcements.
  destruct (truthy teacher_username); [|reflexivity].
  unfold bind at 1, find_one_ at 1. cbn [negb]. cbv beta iota.
  destruct (found _); [|reflexivity]. cbn [negb]. cbv beta iota.
  unfold bind, find_. apply loop_state.
Qed.

End OutcomeFacts.

(** ** What no handler does *)

Module Never.
Import Bson Mongo PyStr PyDatetime PyBson Announcements Spec.
Import HandlerFacts StoreFacts UpdateFacts OutcomeFacts.

(** X1: whatever they return, and on any store, the two listings leave
    both collections exactly as they were. *)
Theorem listings_never_write (utcnow : datetime)
    (teacher_username : option string) (db : DB) :
  (get_active_announcements utcnow db).2 = db
  /\ (get_all_announcements teacher_username db).2 = db.
Proof.
  split; [|apply get_all_state].
  unfold get_active_announcements, bind, find_. apply loop_state.
Qed.

(** X2: no request, successful or not, changes the teachers collection. *)
Theorem teachers_never_written (fromisoformat : string -> option datetime)
    (utcnow : datetime) (new_id : ObjectId)
    (announcement_id message expiration_date : string)
    (start_date teacher_username : option string) (db : DB) :
  teachers (get_active_announcements utcnow db).2 = teachers db
  /\ teachers (get_all_announcements teacher_username db).2 = teachers db
  /\ teachers (create_announcement fromisoformat utcnow new_id message
                expiration_date start_date teacher_username db).2
     = teachers db
  /\ teachers (update_announcement fromisoformat announcement_id message
                expiration_date start_date teacher_username db).2
     = teachers db
  /\ teachers (delete_announcement announcement_id teacher_username db).2
     = teachers db.
Proof.
  split; [|split; [|split; [|split]]].
  - unfold get_active_announcements, bind, find_. now rewrite loop_state.
  - now rewrite get_all_state.
  - destruct (create_cases fromisoformat utcnow new_id message expiration_date
                start_date teacher_username db)
      as [(e & -> & _)|(u & _ & _ & _ & _ & ->)]; reflexivity.
  - destruct (update_cases fromisoformat announcement_id message
                expiration_date start_date teacher_username db)
      as [(e & -> & _)|(obj_id & old & _ & _ & _ & _ & ->)]; reflexivity.
  - destruct (delete_cases announcement_id teacher_username db)
      as [(e & -> & _)|(obj_id & d & _ & _ & _ & ->)]; reflexivity.
Qed.

(** X3: a request that is answered with an error has changed nothing:
    when [get_all_announcements], [create_announcement],
    [update_announcement] or [delete_announcement] raises, the database
    is the one the request found. *)
Theorem failed_request_changes_nothing
    (fromisoformat : string -> option datetime)
    (utcnow : datetime) (new_id : ObjectId)
    (announcement_id message expiration_date : string)
    (start_date teacher_username : option string) (db : DB) :
  (forall e db',
     get_all_announcements teacher_username db = (inl e, db') -> db' = db)
  /\ (forall e db',
       create_announcement fromisoformat utcnow new_id message expiration_date
         start_date teacher_username db = (inl e, db') -> db' = db)
  /\ (forall e db',
       update_announcement fromisoformat announcement_id message
         expiration_date start_date teacher_username db = (inl e, db') ->
       db' = db)
  /\ (forall e db',
       delete_announcement announcement_id teacher_username db = (inl e, db') ->
       db' = db).
Proof.
  split; [|split; [|split]]; intros e db' H.
  - pose proof (get_all_state teacher_username db) as Hs.
    rewrite H in Hs. exact Hs.
  - destruct (create_cases fromisoformat utcnow new_id message expiration_date
                start_date teacher_username db)
      as [(e' & He & _)|(u & _ & _ & _ & _ & Hok)]; congruence.
  - destruct (update_cases fromisoformat announcement_id message
                expiration_date start_date teacher_username db)
      as [(e' & He & _)|(obj_id & old & _ & _ & _ & _ & Hok)]; congruence.
  - destruct (delete_cases announcement_id teacher_username db)
      as [(e' & He & _)|(obj_id & d & _ & _ & _ & Hok)]; congruence.
Qed.

Lemma failed_request_changes_nothing_witness :
  get_all_announcements (Some "stranger") Sample.school
    = (inl invalid_credential, Sample.school)
  /\ create_announcement fromisoformat Sample.midnight Sample.oid_a
       "Exam week" "2024-02-01" None (Some "stranger") Sample.school
     = (inl invalid_credential, Sample.school)
  /\ update_announcement fromisoformat Sample.hex_a "Exam week" "2024-02-01"
       None (Some "stranger") Sample.school
     = (inl invalid_credential, Sample.school)
  /\ delete_announcement Sample.hex_a (Some "stranger") Sample.school
     = (inl invalid_credential, Sample.school)
  /\ Sample.school = Sample.school.
Proof.
  assert (Ht : truthy (Some "stranger") = true) by reflexivity.
  assert (Hf : found (find_one (Field "_id" (of_optional (Some "stranger")))
                        (teachers Sample.school)) = false).
  { apply unknown_not_found, AuthFacts.sample_stranger_unknown. reflexivity. }
  assert (H1 := get_all_invalid (Some "stranger") Sample.school Ht Hf).
  assert (H2 := create_invalid fromisoformat Sample.midnight Sample.oid_a
                  "Exam week" "2024-02-01" None (Some "stranger")
                  Sample.school Ht Hf).
  assert (H3 := update_invalid fromisoformat Sample.hex_a "Exam week"
                  "2024-02-01" None (Some "stranger") Sample.school Ht Hf).
  assert (H4 := delete_invalid Sample.hex_a (Some "stranger") Sample.school
                  Ht Hf).
  split; [exact H1|]. split; [exact H2|]. split; [exact H3|].
  split; [exact H4|].
  destruct (failed_request_changes_nothing fromisoformat Sample.midnight
              Sample.oid_a Sample.hex_a "Exam week" "2024-02-01" None
              (Some "stranger") Sample.school) as (G1 & G2 & G3 & G4).
  pose proof (G2 _ _ H2) as E2. pose proof (G3 _ _ H3) as E3.
  pose proof (G4 _ _ H4) as E4.
  exact (G1 _ _ H1).
Defined.

End Never.

(** ** What the listings contain *)

Module ListingContent.
Import Bson Mongo PyStr PyDatetime PyBson Announcements Spec.
Import MongoFacts ListingFacts HandlerFacts.

(** X4: for a teacher on record and a well-formed store, the teachers'
    listing returns every stored announcement exactly once, each with its
    identifier as a string, whatever its dates. *)
Theorem all_list_is_the_store (u : string) (db : DB) :
  known_teacher u db ->
  wf (announcements db) = true ->
  exists result,
    get_all_announcements (Some u) db = (inr result, db)
    /\ Permutation result (map rendered (announcements db))
    /\ length result = length (announcements db).
Proof.
  intros Hk Hwf. eexists.
  split; [now apply Listing.get_all_announcements_returns|].
  split.
  - apply Permutation_map, sort_perm.
  - rewrite length_map. apply Permutation_length, sort_perm.
Qed.

Lemma all_list_is_the_store_witness :
  known_teacher "mrodriguez" Sample.school
  /\ wf (announcements Sample.school) = true
  /\ exists result,
       get_all_announcements (Some "mrodriguez") Sample.school
         = (inr result, Sample.school)
       /\ Permutation result (map rendered (announcements Sample.school))
       /\ length result = length (announcements Sample.school).
Proof.
  assert (Hk : known_teacher "mrodriguez" Sample.school)
    by (apply AuthFacts.sample_teacher_known; reflexivity).
  assert (Hwf : wf (announcements Sample.school) = true)
    by (vm_compute; reflexivity).
  split; [exact Hk|]. split; [exact Hwf|].
  exact (all_list_is_the_store "mrodriguez" Sample.school Hk Hwf).
Defined.

(** X5: the public listing splits a well-formed store in two: the
    announcements inside their window, each returned exactly once, and
    the others, none of which is returned. *)
Theorem public_list_partitions_store (utcnow : datetime) (db : DB) :
  wf (announcements db) = true ->
  exists result listed hidden,
    get_active_announcements utcnow db = (inr result, db)
    /\ Permutation (listed ++ hidden) (announcements db)
    /\ Permutation result (map rendered listed)
    /\ (forall d, In d listed -> in_window (isoformat utcnow) d)
    /\ (forall d, In d hidden -> ~ in_window (isoformat utcnow) d).
Proof.
  intros Hwf.
  exists (map rendered
            (sort "created_at" (-1)
               (find (active_query (isoformat utcnow)) (announcements db)))),
    (find (active_query (isoformat utcnow)) (announcements db)),
    (List.filter (fun d => negb (matches (active_query (isoformat utcnow)) d))
       (announcements db)).
  split; [now apply get_active_announcements_returns|].
  split; [apply filter_partition|].
  split; [apply Permutation_map, sort_perm|].
  split.
  - intros d Hd. apply MongoFacts.In_find in Hd.
    now apply active_query_window.
  - intros d Hd Hw. apply filter_In in Hd. destruct Hd as [_ Hd].
    apply active_query_window in Hw. rewrite Hw in Hd. discriminate.
Qed.

Lemma public_list_partitions_store_witness :
  wf (announcements Sample.school) = true
  /\ exists result listed hidden,
       get_active_announcements Sample.just_after Sample.school
         = (inr result, Sample.school)
       /\ Permutation (listed ++ hidden) (announcements Sample.school)
       /\ Permutation result (map rendered listed)
       /\ (forall d, In d listed ->
             in_window (isoformat Sample.just_after) d)
       /\ (forall d, In d hidden ->
             ~ in_window (isoformat Sample.just_after) d).
Proof.
  assert (Hwf : wf (announcements Sample.school) = true)
    by (vm_compute; reflexivity).
  split; [exact Hwf|].
  exact (public_list_partitions_store Sample.just_after Sample.school Hwf).
Defined.

(** X6: on a well-formed store, every record of the public listing is a
    record of the teachers' listing; and the two listings hold the same
    records, each as often, exactly when every stored announcement is
    inside its window. *)
Theorem public_list_within_all_list (utcnow : datetime) (u : string)
    (db : DB) :
  known_teacher u db ->
  wf (announcements db) = true ->
  exists public all,
    get_active_announcements utcnow db = (inr public, db)
    /\ get_all_announcements (Some u) db = (inr all, db)
    /\ (forall r, In r public -> In r all)
    /\ ((forall d, In d (announcements db) ->
           in_window (isoformat utcnow) d)
        <-> Permutation public all).
Proof.
  intros Hk Hwf. eexists _, _.
  split; [now apply get_active_announcements_returns|].
  split; [now apply Listing.get_all_announcements_returns|].
  split; [|split].
  - intros r Hr. apply in_map_iff in Hr. destruct Hr as (d & <- & Hd).
    apply in_map. apply MongoFacts.In_sort.
    apply MongoFacts.In_sort, MongoFacts.In_find in Hd. apply Hd.
  - intros Hall. apply Permutation_map.
    rewrite !sort_perm, find_everything; [reflexivity|].
    intros d Hd. now apply active_query_window, Hall.
  - intros Hperm d Hd. apply (listed_iff _ (announcements db)); [exact Hd|].
    apply (Permutation_in _ (Permutation_sym Hperm)).
    now apply in_map, MongoFacts.In_sort.
Qed.

Lemma public_list_within_all_list_witness :
  known_teacher "mrodriguez" Sample.school
  /\ wf (announcements Sample.school) = true
  /\ (forall d, In d (announcements Sample.school) ->
        in_window (isoformat Sample.midnight) d)
  /\ exists public all,
       get_active_announcements Sample.midnight Sample.school
         = (inr public, Sample.school)
       /\ get_all_announcements (Some "mrodriguez") Sample.school
          = (inr all, Sample.school)
       /\ (forall r, In r public -> In r all)
       /\ Permutation public all.
Proof.
  assert (Hk : known_teacher "mrodriguez" Sample.school)
    by (apply AuthFacts.sample_teacher_known; reflexivity).
  assert (Hwf : wf (announcements Sample.school) = true)
    by (vm_compute; reflexivity).
  assert (Hclosing : matches (active_query (isoformat Sample.midnight))
                       Sample.closing = true)
    by (vm_compute; reflexivity).
  assert (Hfair : matches (active_query (isoformat Sample.midnight))
                    Sample.fair = true)
    by (vm_compute; reflexivity).
  assert (Hall : forall d, In d (announcements Sample.school) ->
                   in_window (isoformat Sample.midnight) d).
  { intros d [<-|[<-|[]]]; now apply active_query_window. }
  split; [exact Hk|]. split; [exact Hwf|]. split; [exact Hall|].
  destruct (public_list_within_all_list Sample.midnight "mrodriguez"
              Sample.school Hk Hwf)
    as (public & all & H1 & H2 & H3 & H4).
  exists public, all. split; [exact H1|]. split; [exact H2|].
  split; [exact H3|exact (proj1 H4 Hall)].
Defined.

(** X7: the window is an interval of time strings.  An announcement
    listed at two times is listed at every time whose string lies
    between theirs; once omitted for being past its expiration it is
    omitted at every later time string. *)
Theorem window_is_an_interval (t1 t2 t3 : datetime) (db : DB) (d : Document) :
  wf (announcements db) = true ->
  In d (announcements db) ->
  String.leb (isoformat t1) (isoformat t2) = true ->
  String.leb (isoformat t2) (isoformat t3) = true ->
  exists r1 r2 r3,
    get_active_announcements t1 db = (inr r1, db)
    /\ get_active_announcements t2 db = (inr r2, db)
    /\ get_active_announcements t3 db = (inr r3, db)
    /\ (In (rendered d) r1 -> In (rendered d) r3 -> In (rendered d) r2)
    /\ (In (rendered d) r1 -> ~ In (rendered d) r2 -> ~ In (rendered d) r3).
Proof.
  intros Hwf Hd H12 H23. eexists _, _, _.
  split; [now apply get_active_announcements_returns|].
  split; [now apply get_active_announcements_returns|].
  split; [now apply get_active_announcements_returns|].
  rewrite !(listed_iff _ _ d Hd). unfold in_window. split.
  - intros [Hs1 _] [_ (e & He & He3)]. split.
    + destruct Hs1 as [Hn|(s & Hs & Hle)]; [now left|].
      right. exists s. split; [exact Hs|].
      eapply StrOrd.leb_trans; eassumption.
    + exists e. split; [exact He|]. eapply StrOrd.leb_trans; eassumption.
  - intros [Hs1 (e & He & He1)] Hn2 [Hs3 (e' & He' & He3)].
    apply Hn2. split.
    + destruct Hs1 as [Hn|(s & Hs & Hle)]; [now left|].
      right. exists s. split; [exact Hs|].
      eapply StrOrd.leb_trans; eassumption.
    + exists e'. split; [exact He'|]. eapply StrOrd.leb_trans; eassumption.
Qed.

Lemma window_is_an_interval_witness :
  wf (announcements Sample.school) = true
  /\ In Sample.fair (announcements Sample.school)
  /\ String.leb (isoformat Sample.december) (isoformat Sample.midnight) = true
  /\ String.leb (isoformat Sample.midnight) (isoformat Sample.just_after)
     = true
  /\ exists r1 r2 r3,
       get_active_announcements Sample.december Sample.school
         = (inr r1, Sample.school)
       /\ get_active_announcements Sample.midnight Sample.school
          = (inr r2, Sample.school)
       /\ get_active_announcements Sample.just_after Sample.school
          = (inr r3, Sample.school)
       /\ (In (rendered Sample.fair) r1 -> In (rendered Sample.fair) r3 ->
           In (rendered Sample.fair) r2)
       /\ (In (rendered Sample.fair) r1 -> ~ In (rendered Sample.fair) r2 ->
           ~ In (rendered Sample.fair) r3).
Proof.
  assert (Hwf : wf (announcements Sample.school) = true)
    by (vm_compute; reflexivity).
  assert (Hin : In Sample.fair (announcements Sample.school))
    by (right; left; reflexivity).
  assert (H12 : String.leb (isoformat Sample.december)
                  (isoformat Sample.midnight) = true)
    by (vm_compute; reflexivity).
  assert (H23 : String.leb (isoformat Sample.midnight)
                  (isoformat Sample.just_after) = true)
    by (vm_compute; reflexivity).
  split; [exact Hwf|]. split; [exact Hin|]. split; [exact H12|].
  split; [exact H23|].
  exact (window_is_an_interval Sample.december Sample.midnight
           Sample.just_after Sample.school Sample.fair Hwf Hin H12 H23).
Defined.

End ListingContent.

(** ** Identifiers as strings *)

Module IdFacts.
Import Bson Mongo PyStr PyDatetime PyBson Announcements Spec.

Lemma hex_byte (c : ascii) :
  is_space (hex_digit (N_of_ascii c / 16)) = false
  /\ hex_value (hex_digit (N_of_ascii c / 16)) = Some (N_of_ascii c / 16)%N
  /\ hex_value (hex_digit (N_of_ascii c mod 16))
     = Some (N_of_ascii c mod 16)%N
  /\ ascii_of_N (16 * (N_of_ascii c / 16) + N_of_ascii c mod 16) = c.
Proof.
  destruct c as [[] [] [] [] [] [] [] []]; vm_compute; repeat split.
Qed.

Lemma fromhex_hexlify (b : string) : fromhex (hexlify b) = Some b.
Proof.
  induction b as [|c b IH]; [reflexivity|].
  destruct (hex_byte c) as (Hs & Hhi & Hlo & Hc).
  cbn [hexlify fromhex]. rewrite Hs, Hhi, Hlo, IH. cbn [fmap option_fmap option_map].
  now rewrite Hc.
Qed.

Lemma length_hexlify (b : string) :
  String.length (hexlify b) = (2 * String.length b)%nat.
Proof.
  induction b as [|c b IH]; [reflexivity|].
  cbn [hexlify String.length]. rewrite IH. lia.
Qed.

(** The string of a twelve-byte object id is read back as that id. *)
Lemma ObjectId_of_str_hexlify (oid : ObjectId) :
  String.length oid = 12%nat -> ObjectId_of_str (hexlify oid) = Some oid.
Proof.
  intros H. unfold ObjectId_of_str. rewrite length_hexlify, H.
  cbn [Nat.mul Nat.add Nat.eqb]. apply fromhex_hexlify.
Qed.

End IdFacts.

(** ** How the operations compose *)

Module Composition.
Import Bson Mongo PyStr PyDatetime PyBson Announcements Spec.
Import MongoFacts ListingFacts HandlerFacts StoreFacts UpdateFacts.
Import OutcomeFacts ListingContent IdFacts.

Lemma known_of_authenticated (u : string) (db : DB) :
  authenticated (Some u) db -> known_teacher u db.
Proof.
  intros [Ht Hf]. split.
  - intros ->. discriminate.
  - cbn [of_optional] in Hf.
    destruct (find_one (Field "_id" (VStr u)) (teachers db)); [eauto|].
    discriminate.
Qed.

Lemma authenticated_some (tu : option string) (db : DB) :
  authenticated tu db -> exists u, tu = Some u.
Proof. intros [Ht _]. destruct tu; [eauto|discriminate]. Qed.

Lemma find_one_snoc (f : Filter) (coll : list Document) (x : Document) :
  existsb (matches f) coll = false -> matches f x = true ->
  find_one f (coll ++ [x]) = Some x.
Proof.
  unfold find_one. induction coll as [|a coll IH]; cbn [existsb app List.find].
  - intros _ ->. reflexivity.
  - intros H Hx. apply orb_false_iff in H. destruct H as [-> H]. now apply IH.
Qed.

Lemma delete_one_snoc (f : Filter) (coll : list Document) (x : Document) :
  existsb (matches f) coll = false -> matches f x = true ->
  (delete_one f (coll ++ [x])).1 = coll.
Proof.
  induction coll as [|a coll IH]; cbn [existsb app delete_one].
  - intros _ ->. reflexivity.
  - intros H Hx. apply orb_false_iff in H. destruct H as [-> H].
    cbn [fst]. now rewrite IH.
Qed.

Lemma delete_one_perm (f : Filter) (coll : list Document) (d : Document) :
  find_one f coll = Some d ->
  Permutation coll (d :: (delete_one f coll).1).
Proof.
  unfold find_one. induction coll as [|a coll IH]; cbn [List.find delete_one];
    [discriminate|].
  destruct (matches f a).
  - now intros [= ->].
  - intros H. cbn [fst]. rewrite (IH H) at 1. apply perm_swap.
Qed.

Lemma ids_replace_first (v : Value) (new : Document) (coll : list Document) :
  field new "_id" = v ->
  ids (replace_first (Field "_id" v) new coll) = ids coll.
Proof.
  intros Hnew. induction coll as [|a coll IH]; [reflexivity|].
  cbn [replace_first]. destruct (matches (Field "_id" v) a) eqn:Ha.
  - apply MongoFacts.matches_id in Ha. unfold ids. cbn [map]. congruence.
  - unfold ids in *. cbn [map]. now rewrite IH.
Qed.

Lemma In_replace_first (f : Filter) (new d : Document) (coll : list Document) :
  find_one f coll = Some d -> In new (replace_first f new coll).
Proof.
  unfold find_one. induction coll as [|a coll IH]; cbn [List.find replace_first];
    [discriminate|].
  destruct (matches f a); [now left|]. intros H. right. now apply IH.
Qed.

Lemma rendered_stored (doc : Document) (oid : ObjectId) :
  rendered (<["_id" := VObjectId oid]> doc)
  = <["_id" := VStr (hexlify oid)]> doc.
Proof.
  unfold rendered, field. rewrite lookup_insert_eq. cbn [default from_option id str].
  apply insert_insert_eq.
Qed.

Lemma updated_record_again (old : Document) (message expiration_date : string)
    (start_date : option string) :
  updated_record (updated_record old message expiration_date start_date)
    message expiration_date start_date
  = updated_record old message expiration_date start_date.
Proof.
  unfold updated_record. destruct (truthy start_date).
  - rewrite (insert_insert_ne _ "message" "start_date") by discriminate.
    rewrite (insert_insert_ne _ "message" "expiration_date") by discriminate.
    rewrite insert_insert_eq.
    rewrite (insert_insert_ne _ "expiration_date" "start_date") by discriminate.
    rewrite insert_insert_eq. now rewrite insert_insert_eq.
  - rewrite (delete_id _ "start_date").
    + rewrite (insert_insert_ne _ "message" "expiration_date") by discriminate.
      rewrite insert_insert_eq. now rewrite insert_insert_eq.
    + rewrite !lookup_insert_ne by discriminate. apply lookup_delete_eq.
Qed.

Lemma sample_created :
  create_announcement fromisoformat Sample.december Sample.oid_a
    "Exchange visit" "2024-01-01T03:00:00+05:00" None (Some "mrodriguez")
    Sample.empty_school
  = (inr (<["_id" := VStr Sample.hex_a]> Sample.abroad), Sample.school_abroad).
Proof.
  rewrite (create_inserts fromisoformat _ _ _ _ _ _ _ "mrodriguez" eq_refl).
  - reflexivity.
  - apply authenticated_known, AuthFacts.sample_teacher_known; reflexivity.
  - vm_compute; reflexivity.
Qed.

Lemma sample_fair_found :
  find_one (Field "_id" (VObjectId Sample.oid_b)) (announcements Sample.school)
  = Some Sample.fair.
Proof.
  assert (Hclosing : matches (Field "_id" (VObjectId Sample.oid_b))
                       Sample.closing = false)
    by (vm_compute; reflexivity).
  assert (Hfair : matches (Field "_id" (VObjectId Sample.oid_b)) Sample.fair
                  = true)
    by (vm_compute; reflexivity).
  unfold find_one. cbn [Sample.school announcements List.find].
  now rewrite Hclosing, Hfair.
Qed.

Lemma sample_updated :
  update_announcement fromisoformat Sample.hex_b "Science fair moved"
    "2030-06-01" None (Some "mrodriguez") Sample.school
  = (inr (<["_id" := VStr Sample.hex_b]>
            (updated_record Sample.fair "Science fair moved" "2030-06-01" None)),
     {| announcements :=
          replace_first (Field "_id" (VObjectId Sample.oid_b))
            (updated_record Sample.fair "Science fair moved" "2030-06-01" None)
            (announcements Sample.school);
        teachers := teachers Sample.school |}).
Proof.
  rewrite (update_stores fromisoformat _ _ _ _ _ _ Sample.oid_b Sample.fair).
  - reflexivity.
  - apply authenticated_known, AuthFacts.sample_teacher_known; reflexivity.
  - vm_compute; reflexivity.
  - exact sample_fair_found.
  - vm_compute; reflexivity.
Qed.

Lemma sample_closing_found :
  find_one (Field "_id" (VObjectId Sample.oid_a)) (announcements Sample.school)
  = Some Sample.closing.
Proof.
  assert (Hclosing : matches (Field "_id" (VObjectId Sample.oid_a))
                       Sample.closing = true)
    by (vm_compute; reflexivity).
  unfold find_one. cbn [Sample.school announcements List.find].
  now rewrite Hclosing.
Qed.

Lemma sample_deleted :
  delete_announcement Sample.hex_a (Some "mrodriguez") Sample.school
  = (inr confirmation,
     {| announcements :=
          (delete_one (Field "_id" (VObjectId Sample.oid_a))
             (announcements Sample.school)).1;
        teachers := teachers Sample.school |}).
Proof.
  apply (delete_removes _ _ _ Sample.oid_a Sample.closing).
  - apply authenticated_known, AuthFacts.sample_teacher_known; reflexivity.
  - vm_compute; reflexivity.
  - exact sample_closing_found.
Qed.

(** X8: on a well-formed store, the record a successful create returns
    is in the teachers' listing from then on, and it is in the public
    listing at exactly the times whose string is at least the supplied
    [start_date] (when a non-empty one was supplied) and at most the
    supplied [expiration_date]. *)
Theorem created_is_listed (fromisoformat : string -> option datetime)
    (utcnow : datetime) (new_id : ObjectId) (message expiration_date : string)
    (start_date teacher_username : option string) (db db' : DB)
    (created : Document) :
  wf (announcements db) = true ->
  create_announcement fromisoformat utcnow new_id message expiration_date
    start_date teacher_username db = (inr created, db') ->
  (exists all,
     get_all_announcements teacher_username db' = (inr all, db')
     /\ In created all)
  /\ forall later,
       exists public,
         get_active_announcements later db' = (inr public, db')
         /\ (In created public <->
             (truthy start_date = false
              \/ exists s, start_date = Some s
                           /\ String.leb s (isoformat later) = true)
             /\ String.leb (isoformat later) expiration_date = true).
Proof.
  intros Hwf H.
  destruct (create_cases fromisoformat utcnow new_id message expiration_date
              start_date teacher_username db)
    as [(e & He & _)|(u & -> & Ha & _ & Hnew & Hok)]; [congruence|].
  rewrite Hok in H. injection H as <- <-.
  set (record := new_record utcnow message expiration_date start_date u).
  set (db' := {| announcements :=
                   announcements db ++ [<["_id" := VObjectId new_id]> record];
                 teachers := teachers db |}).
  assert (Hwf' : wf (announcements db') = true) by now apply Invariant.insert_wf.
  assert (Hin : In (<["_id" := VObjectId new_id]> record) (announcements db'))
    by (apply in_or_app; right; now left).
  rewrite <- (rendered_stored record new_id).
  split.
  - eexists. split.
    + apply Listing.get_all_announcements_returns; [|exact Hwf'].
      apply known_of_authenticated. exact Ha.
    + apply in_map. now apply MongoFacts.In_sort.
  - intros later. eexists.
    split; [now apply get_active_announcements_returns|].
    rewrite (listed_iff _ _ _ Hin). unfold in_window.
    rewrite !lookup_insert_ne by discriminate.
    destruct (TeacherOnly.new_record_fields utcnow message expiration_date
                start_date u) as (_ & He & _ & _ & Hs & _).
    fold record in He, Hs. rewrite He, Hs.
    destruct start_date as [s|]; cbn [truthy].
    + destruct (String.eqb s "") eqn:Hempty; cbn [negb].
      * split.
        -- intros [_ (e & [= <-] & Hle)]. split; [now left|exact Hle].
        -- intros [_ Hle]. split; [now left|eauto].
      * split.
        -- intros [[[=]|(s' & [= <-] & Hle)] (e & [= <-] & Hle')].
           split; [right; eauto|exact Hle'].
        -- intros [[[=]|(s' & [= <-] & Hle)] Hle']. split; [right|]; eauto.
    + split.
      * intros [_ (e & [= <-] & Hle)]. split; [now left|exact Hle].
      * intros [_ Hle]. split; [now left|eauto].
Qed.

Lemma created_is_listed_witness :
  wf (announcements Sample.empty_school) = true
  /\ create_announcement fromisoformat Sample.december Sample.oid_a
       "Exchange visit" "2024-01-01T03:00:00+05:00" None (Some "mrodriguez")
       Sample.empty_school
     = (inr (<["_id" := VStr Sample.hex_a]> Sample.abroad),
        Sample.school_abroad)
  /\ (exists all,
        get_all_announcements (Some "mrodriguez") Sample.school_abroad
          = (inr all, Sample.school_abroad)
        /\ In (<["_id" := VStr Sample.hex_a]> Sample.abroad) all)
  /\ forall later,
       exists public,
         get_active_announcements later Sample.school_abroad
           = (inr public, Sample.school_abroad)
         /\ (In (<["_id" := VStr Sample.hex_a]> Sample.abroad) public <->
             (truthy None = false
              \/ exists s, None = Some s
                           /\ String.leb s (isoformat later) = true)
             /\ String.leb (isoformat later) "2024-01-01T03:00:00+05:00"
                = true).
Proof.
  assert (Hwf : wf (announcements Sample.empty_school) = true) by reflexivity.
  assert (H := sample_created).
  split; [exact Hwf|]. split; [exact H|].
  exact (created_is_listed fromisoformat Sample.december Sample.oid_a
           "Exchange visit" "2024-01-01T03:00:00+05:00" None
           (Some "mrodriguez") Sample.empty_school Sample.school_abroad
           (<["_id" := VStr Sample.hex_a]> Sample.abroad) Hwf H).
Defined.

(** X9: the identifier a successful create returns is accepted by delete,
    and deleting it right away gives back the database as it was before
    the create (for a twelve-byte generated id, as the driver makes
    them). *)
Theorem create_then_delete_restores
    (fromisoformat : string -> option datetime)
    (utcnow : datetime) (new_id : ObjectId) (message expiration_date : string)
    (start_date teacher_username : option string) (db db' : DB)
    (created : Document) :
  String.length new_id = 12%nat ->
  create_announcement fromisoformat utcnow new_id message expiration_date
    start_date teacher_username db = (inr created, db') ->
  exists id,
    created !! "_id" = Some (VStr id)
    /\ delete_announcement id teacher_username db' = (inr confirmation, db).
Proof.
  intros Hlen H.
  destruct (create_cases fromisoformat utcnow new_id message expiration_date
              start_date teacher_username db)
    as [(e & He & _)|(u & -> & Ha & _ & Hnew & Hok)]; [congruence|].
  rewrite Hok in H. injection H as <- <-.
  exists (hexlify new_id). split; [apply lookup_insert_eq|].
  set (record := new_record utcnow message expiration_date start_date u).
  assert (Hm : matches (Field "_id" (VObjectId new_id))
                 (<["_id" := VObjectId new_id]> record) = true).
  { apply MongoFacts.matches_id. unfold field. now rewrite lookup_insert_eq. }
  assert (Hnone : existsb (matches (Field "_id" (VObjectId new_id)))
                    (announcements db) = false) by exact Hnew.
  rewrite (delete_removes _ _ _ new_id (<["_id" := VObjectId new_id]> record)).
  - cbn [announcements teachers].
    rewrite (delete_one_snoc _ _ _ Hnone Hm). now destruct db.
  - exact Ha.
  - now apply ObjectId_of_str_hexlify.
  - cbn [announcements]. now apply find_one_snoc.
Qed.

Lemma create_then_delete_restores_witness :
  String.length Sample.oid_a = 12%nat
  /\ create_announcement fromisoformat Sample.december Sample.oid_a
       "Exchange visit" "2024-01-01T03:00:00+05:00" None (Some "mrodriguez")
       Sample.empty_school
     = (inr (<["_id" := VStr Sample.hex_a]> Sample.abroad),
        Sample.school_abroad)
  /\ exists id,
       <["_id" := VStr Sample.hex_a]> Sample.abroad !! "_id" = Some (VStr id)
       /\ delete_announcement id (Some "mrodriguez") Sample.school_abroad
          = (inr confirmation, Sample.empty_school).
Proof.
  assert (Hlen : String.length Sample.oid_a = 12%nat) by reflexivity.
  assert (H := sample_created).
  split; [exact Hlen|]. split; [exact H|].
  exact (create_then_delete_restores fromisoformat Sample.december Sample.oid_a
           "Exchange visit" "2024-01-01T03:00:00+05:00" None
           (Some "mrodriguez") Sample.empty_school Sample.school_abroad
           (<["_id" := VStr Sample.hex_a]> Sample.abroad) Hlen H).
Defined.

(** X10: update is idempotent: repeating a successful update with the
    same arguments returns the same record and leaves the database as the
    first update left it. *)
Theorem update_is_idempotent (fromisoformat : string -> option datetime)
    (announcement_id message expiration_date : string)
    (start_date teacher_username : option string) (db db' : DB)
    (updated : Document) :
  update_announcement fromisoformat announcement_id message expiration_date
    start_date teacher_username db = (inr updated, db') ->
  update_announcement fromisoformat announcement_id message expiration_date
    start_date teacher_username db' = (inr updated, db').
Proof.
  intros H.
  destruct (update_cases fromisoformat announcement_id message expiration_date
              start_date teacher_username db)
    as [(e & He & _)|(obj_id & old & Ha & Hid & Hold & Hd & Hok)];
    [congruence|].
  rewrite Hok in H. injection H as <- <-.
  set (new := updated_record old message expiration_date start_date).
  assert (Hm : matches (Field "_id" (VObjectId obj_id)) new = true).
  { apply MongoFacts.matches_id. unfold new. rewrite field_id_updated.
    now apply MongoFacts.matches_id, (MongoFacts.find_one_some _ _ _ Hold). }
  rewrite (update_stores fromisoformat _ _ _ _ _ _ obj_id new).
  - cbv zeta. cbn [announcements teachers]. unfold new.
    rewrite updated_record_again. fold new.
    now rewrite (replace_first_twice _ _ _ _ Hm).
  - exact Ha.
  - exact Hid.
  - cbn [announcements]. now apply (find_one_replace_first _ old).
  - exact Hd.
Qed.

Lemma update_is_idempotent_witness :
  update_announcement fromisoformat Sample.hex_b "Science fair moved"
    "2030-06-01" None (Some "mrodriguez") Sample.school
  = (inr (<["_id" := VStr Sample.hex_b]>
            (updated_record Sample.fair "Science fair moved" "2030-06-01" None)),
     {| announcements :=
          replace_first (Field "_id" (VObjectId Sample.oid_b))
            (updated_record Sample.fair "Science fair moved" "2030-06-01" None)
            (announcements Sample.school);
        teachers := teachers Sample.school |})
  /\ update_announcement fromisoformat Sample.hex_b "Science fair moved"
       "2030-06-01" None (Some "mrodriguez")
       {| announcements :=
            replace_first (Field "_id" (VObjectId Sample.oid_b))
              (updated_record Sample.fair "Science fair moved" "2030-06-01"
                 None)
              (announcements Sample.school);
          teachers := teachers Sample.school |}
     = (inr (<["_id" := VStr Sample.hex_b]>
               (updated_record Sample.fair "Science fair moved" "2030-06-01"
                  None)),
        {| announcements :=
             replace_first (Field "_id" (VObjectId Sample.oid_b))
               (updated_record Sample.fair "Science fair moved" "2030-06-01"
                  None)
               (announcements Sample.school);
           teachers := teachers Sample.school |}).
Proof.
  split; [exact sample_updated|].
  exact (update_is_idempotent fromisoformat Sample.hex_b "Science fair moved"
           "2030-06-01" None (Some "mrodriguez") Sample.school _ _
           sample_updated).
Defined.

Lemma inverted_window_closed (now : string) (d : Document) (s e : string) :
  d !! "start_date" = Some (VStr s) ->
  d !! "expiration_date" = Some (VStr e) ->
  String.ltb e s = true ->
  ~ in_window now d.
Proof.
  intros Hs He Hlt [[Hn|(s' & Hs' & Hle)] (e' & He' & Hle')]; [congruence|].
  rewrite Hs in Hs'. injection Hs' as <-.
  rewrite He in He'. injection He' as <-.
  apply StrOrd.ltb_leb_false in Hlt.
  rewrite (StrOrd.leb_trans _ _ _ Hle Hle') in Hlt. discriminate.
Qed.

Lemma ltb_nonempty (e s : string) :
  String.ltb e s = true -> truthy (Some s) = true.
Proof.
  intros H. cbn [truthy]. destruct s; [|reflexivity].
  unfold String.ltb in H. destruct e; discriminate.
Qed.

(** X11: no check relates the two dates.  For a teacher on record and
    dates that parse, create (with an unused identifier) and update (of a
    stored announcement) succeed with a [start_date] string greater than
    the [expiration_date] string, store both as given, and the record is
    then in no public listing, at any time. *)
Theorem inverted_window_never_listed
    (fromisoformat : string -> option datetime)
    (utcnow : datetime) (new_id : ObjectId)
    (announcement_id message expiration_date s : string)
    (teacher_username : option string) (db : DB) :
  wf (announcements db) = true ->
  authenticated teacher_username db ->
  dates_parse fromisoformat expiration_date (Some s) = true ->
  String.ltb expiration_date s = true ->
  (existsb (fun d => bool_decide (field d "_id" = VObjectId new_id))
     (announcements db) = false ->
   exists created db',
     create_announcement fromisoformat utcnow new_id message expiration_date
       (Some s) teacher_username db = (inr created, db')
     /\ created !! "start_date" = Some (VStr s)
     /\ created !! "expiration_date" = Some (VStr expiration_date)
     /\ forall later,
          exists public,
            get_active_announcements later db' = (inr public, db')
            /\ ~ In created public)
  /\ (forall obj_id,
        ObjectId_of_str announcement_id = Some obj_id ->
        is_Some (find_one (Field "_id" (VObjectId obj_id))
                   (announcements db)) ->
        exists updated db',
          update_announcement fromisoformat announcement_id message
            expiration_date (Some s) teacher_username db = (inr updated, db')
          /\ updated !! "start_date" = Some (VStr s)
          /\ updated !! "expiration_date" = Some (VStr expiration_date)
          /\ forall later,
               exists public,
                 get_active_announcements later db' = (inr public, db')
                 /\ ~ In updated public).
Proof.
  intros Hwf Ha Hd Hlt.
  pose proof (ltb_nonempty _ _ Hlt) as Hs.
  destruct (authenticated_some _ _ Ha) as [u ->].
  split.
  - intros Hnew.
    set (record := new_record utcnow message expiration_date (Some s) u).
    assert (Hstart : record !! "start_date" = Some (VStr s)).
    { unfold record, new_record. cbv zeta. rewrite Hs. apply lookup_insert_eq. }
    assert (Hexp : record !! "expiration_date" = Some (VStr expiration_date)).
    { apply (TeacherOnly.new_record_fields utcnow message expiration_date
               (Some s) u). }
    eexists _, _. split.
    { rewrite (create_inserts fromisoformat _ _ _ _ _ _ _ u eq_refl Ha Hd).
      cbv zeta. rewrite Hnew. reflexivity. }
    fold record. rewrite !lookup_insert_ne by discriminate.
    split; [exact Hstart|]. split; [exact Hexp|].
    intros later. eexists. split.
    + apply get_active_announcements_returns. cbn [announcements].
      now apply Invariant.insert_wf.
    + cbn [announcements]. rewrite <- (rendered_stored record new_id).
      rewrite listed_iff by (apply in_or_app; right; now left).
      apply (inverted_window_closed _ _ s expiration_date);
        [| |exact Hlt]; now rewrite lookup_insert_ne by discriminate.
  - intros obj_id Hid [old Hold].
    set (new := updated_record old message expiration_date (Some s)).
    assert (Hnew : field new "_id" = VObjectId obj_id).
    { unfold new. rewrite field_id_updated.
      now apply MongoFacts.matches_id, (MongoFacts.find_one_some _ _ _ Hold). }
    assert (Hstart : new !! "start_date" = Some (VStr s)).
    { unfold new, updated_record. rewrite Hs. apply lookup_insert_eq. }
    assert (Hexp : new !! "expiration_date" = Some (VStr expiration_date)).
    { unfold new, updated_record. rewrite Hs.
      rewrite lookup_insert_ne by discriminate. apply lookup_insert_eq. }
    eexists _, _. split.
    { rewrite (update_stores fromisoformat _ _ _ _ _ _ obj_id old Ha Hid Hold Hd).
      cbv zeta. reflexivity. }
    fold new. rewrite !lookup_insert_ne by discriminate.
    split; [exact Hstart|]. split; [exact Hexp|].
    intros later. eexists. split.
    + apply get_active_announcements_returns. cbn [announcements].
      apply Invariant.replace_first_wf; [discriminate|exact Hnew|exact Hwf].
    + cbn [announcements].
      replace (<["_id" := VStr (hexlify obj_id)]> new) with (rendered new)
        by (unfold rendered; now rewrite Hnew).
      rewrite listed_iff by now apply (In_replace_first _ _ old).
      now apply (inverted_window_closed _ _ s expiration_date).
Qed.

Lemma inverted_window_never_listed_witness :
  wf (announcements Sample.school) = true
  /\ authenticated (Some "mrodriguez") Sample.school
  /\ dates_parse fromisoformat "2024-01-01T00:00:00"
       (Some "2024-06-01T00:00:00") = true
  /\ String.ltb "2024-01-01T00:00:00" "2024-06-01T00:00:00" = true
  /\ existsb (fun d => bool_decide (field d "_id" = VObjectId "cccccccccccc"))
       (announcements Sample.school) = false
  /\ ObjectId_of_str Sample.hex_a = Some Sample.oid_a
  /\ is_Some (find_one (Field "_id" (VObjectId Sample.oid_a))
                (announcements Sample.school))
  /\ (exists created db',
        create_announcement fromisoformat Sample.december "cccccccccccc"
          "Summer camp" "2024-01-01T00:00:00" (Some "2024-06-01T00:00:00")
          (Some "mrodriguez") Sample.school = (inr created, db')
        /\ created !! "start_date" = Some (VStr "2024-06-01T00:00:00")
        /\ created !! "expiration_date" = Some (VStr "2024-01-01T00:00:00")
        /\ forall later,
             exists public,
               get_active_announcements later db' = (inr public, db')
               /\ ~ In created public)
  /\ exists updated db',
       update_announcement fromisoformat Sample.hex_a "Summer camp"
         "2024-01-01T00:00:00" (Some "2024-06-01T00:00:00")
         (Some "mrodriguez") Sample.school = (inr updated, db')
       /\ updated !! "start_date" = Some (VStr "2024-06-01T00:00:00")
       /\ updated !! "expiration_date" = Some (VStr "2024-01-01T00:00:00")
       /\ forall later,
            exists public,
              get_active_announcements later db' = (inr public, db')
              /\ ~ In updated public.
Proof.
  assert (Hwf : wf (announcements Sample.school) = true)
    by (vm_compute; reflexivity).
  assert (Ha : authenticated (Some "mrodriguez") Sample.school)
    by (apply authenticated_known, AuthFacts.sample_teacher_known; reflexivity).
  assert (Hd : dates_parse fromisoformat "2024-01-01T00:00:00"
                 (Some "2024-06-01T00:00:00") = true)
    by (vm_compute; reflexivity).
  assert (Hlt : String.ltb "2024-01-01T00:00:00" "2024-06-01T00:00:00" = true)
    by reflexivity.
  assert (Hnew : existsb
                   (fun d => bool_decide
                               (field d "_id" = VObjectId "cccccccccccc"))
                   (announcements Sample.school) = false)
    by (vm_compute; reflexivity).
  assert (Hid : ObjectId_of_str Sample.hex_a = Some Sample.oid_a)
    by (vm_compute; reflexivity).
  assert (Hold : is_Some (find_one (Field "_id" (VObjectId Sample.oid_a))
                            (announcements Sample.school)))
    by (exists Sample.closing; exact sample_closing_found).
  destruct (inverted_window_never_listed fromisoformat Sample.december
              "cccccccccccc" Sample.hex_a "Summer camp" "2024-01-01T00:00:00"
              "2024-06-01T00:00:00" (Some "mrodriguez") Sample.school
              Hwf Ha Hd Hlt)
    as [Hcreate Hupdate].
  repeat (split; [assumption|]).
  split; [exact (Hcreate Hnew)|exact (Hupdate Sample.oid_a Hid Hold)].
Defined.

(** X12: on a well-formed store a successful delete takes exactly one
    record, the one stored under the identifier, out of the teachers'
    listing. *)
Theorem deleted_leaves_all_list (announcement_id : string)
    (teacher_username : option string) (db db' : DB) (answer : Document) :
  wf (announcements db) = true ->
  delete_announcement announcement_id teacher_username db = (inr answer, db') ->
  exists obj_id d before after,
    ObjectId_of_str announcement_id = Some obj_id
    /\ In d (announcements db)
    /\ field d "_id" = VObjectId obj_id
    /\ get_all_announcements teacher_username db = (inr before, db)
    /\ get_all_announcements teacher_username db' = (inr after, db')
    /\ Permutation before (rendered d :: after).
Proof.
  intros Hwf H.
  destruct (delete_cases announcement_id teacher_username db)
    as [(e & He & _)|(obj_id & d & Ha & Hid & Hd & Hok)]; [congruence|].
  rewrite Hok in H. injection H as <- <-.
  destruct (authenticated_some _ _ Ha) as [u ->].
  pose proof (known_of_authenticated u db Ha) as Hk.
  pose proof (MongoFacts.find_one_some _ _ _ Hd) as [Hin Hm].
  exists obj_id, d. eexists _, _.
  split; [exact Hid|]. split; [exact Hin|].
  split; [now apply MongoFacts.matches_id|].
  split; [now apply Listing.get_all_announcements_returns|].
  split.
  - apply Listing.get_all_announcements_returns; [exact Hk|].
    cbn [announcements]. now apply delete_one_wf.
  - cbn [announcements]. rewrite !sort_perm.
    change (rendered d :: map rendered ?l) with (map rendered (d :: l)).
    apply Permutation_map. now apply delete_one_perm.
Qed.

Lemma deleted_leaves_all_list_witness :
  wf (announcements Sample.school) = true
  /\ exists obj_id d before after,
       ObjectId_of_str Sample.hex_a = Some obj_id
       /\ In d (announcements Sample.school)
       /\ field d "_id" = VObjectId obj_id
       /\ get_all_announcements (Some "mrodriguez") Sample.school
          = (inr before, Sample.school)
       /\ get_all_announcements (Some "mrodriguez")
            {| announcements :=
                 (delete_one (Field "_id" (VObjectId Sample.oid_a))
                    (announcements Sample.school)).1;
               teachers := teachers Sample.school |}
          = (inr after,
             {| announcements :=
                  (delete_one (Field "_id" (VObjectId Sample.oid_a))
                     (announcements Sample.school)).1;
                teachers := teachers Sample.school |})
       /\ Permutation before (rendered d :: after).
Proof.
  assert (Hwf : wf (announcements Sample.school) = true)
    by (vm_compute; reflexivity).
  split; [exact Hwf|].
  exact (deleted_leaves_all_list Sample.hex_a (Some "mrodriguez") Sample.school
           _ _ Hwf sample_deleted).
Defined.

(** X13: on a well-formed store a successful update changes no
    identifier and no count: the identifiers of the stored announcements
    are the same list as before, and the record the update returns is in
    the teachers' listing. *)
Theorem updated_is_listed (fromisoformat : string -> option datetime)
    (announcement_id message expiration_date : string)
    (start_date teacher_username : option string) (db db' : DB)
    (updated : Document) :
  wf (announcements db) = true ->
  update_announcement fromisoformat announcement_id message expiration_date
    start_date teacher_username db = (inr updated, db') ->
  ids (announcements db') = ids (announcements db)
  /\ length (announcements db') = length (announcements db)
  /\ exists all,
       get_all_announcements teacher_username db' = (inr all, db')
       /\ In updated all.
Proof.
  intros Hwf H.
  destruct (update_cases fromisoformat announcement_id message expiration_date
              start_date teacher_username db)
    as [(e & He & _)|(obj_id & old & Ha & Hid & Hold & Hd & Hok)];
    [congruence|].
  rewrite Hok in H. injection H as <- <-.
  destruct (authenticated_some _ _ Ha) as [u ->].
  set (new := updated_record old message expiration_date start_date).
  assert (Hnew : field new "_id" = VObjectId obj_id).
  { unfold new. rewrite field_id_updated.
    now apply MongoFacts.matches_id, (MongoFacts.find_one_some _ _ _ Hold). }
  assert (Hids : ids (replace_first (Field "_id" (VObjectId obj_id)) new
                        (announcements db)) = ids (announcements db))
    by now apply ids_replace_first.
  cbn [announcements]. split; [exact Hids|]. split.
  - unfold ids in Hids. apply (f_equal (@length Value)) in Hids.
    now rewrite !length_map in Hids.
  - eexists. split.
    + apply Listing.get_all_announcements_returns.
      * now apply known_of_authenticated.
      * cbn [announcements]. apply Invariant.replace_first_wf;
          [discriminate|exact Hnew|exact Hwf].
    + cbn [announcements].
      replace (<["_id" := VStr (hexlify obj_id)]> new) with (rendered new)
        by (unfold rendered; now rewrite Hnew).
      apply in_map, MongoFacts.In_sort. now apply (In_replace_first _ _ old).
Qed.

Lemma updated_is_listed_witness :
  wf (announcements Sample.school) = true
  /\ ids (replace_first (Field "_id" (VObjectId Sample.oid_b))
            (updated_record Sample.fair "Science fair moved" "2030-06-01" None)
            (announcements Sample.school))
     = ids (announcements Sample.school)
  /\ exists all,
       get_all_announcements (Some "mrodriguez")
         {| announcements :=
              replace_first (Field "_id" (VObjectId Sample.oid_b))
                (updated_record Sample.fair "Science fair moved" "2030-06-01"
                   None)
                (announcements Sample.school);
            teachers := teachers Sample.school |}
       = (inr all,
          {| announcements :=
               replace_first (Field "_id" (VObjectId Sample.oid_b))
                 (updated_record Sample.fair "Science fair moved" "2030-06-01"
                    None)
                 (announcements Sample.school);
             teachers := teachers Sample.school |})
       /\ In (<["_id" := VStr Sample.hex_b]>
                (updated_record Sample.fair "Science fair moved" "2030-06-01"
                   None))
            all.
Proof.
  assert (Hwf : wf (announcements Sample.school) = true)
    by (vm_compute; reflexivity).
  split; [exact Hwf|].
  destruct (updated_is_listed fromisoformat Sample.hex_b "Science fair moved"
              "2030-06-01" None (Some "mrodriguez") Sample.school _ _ Hwf
              sample_updated) as (Hids & _ & Hall).
  split; [exact Hids|exact Hall].
Defined.

(** X14: update checks the identifier before the dates: for an
    authenticated teacher an identifier that is no store key is answered
    400 "Invalid announcement ID format" and one that names no stored
    announcement 404 "Announcement not found", whatever the message and
    the dates, and the store is left as it was. *)
Theorem update_checks_identifier_first
    (fromisoformat : string -> option datetime)
    (announcement_id message expiration_date : string)
    (start_date teacher_username : option string) (db : DB) :
  authenticated teacher_username db ->
  (ObjectId_of_str announcement_id = None ->
   update_announcement fromisoformat announcement_id message expiration_date
     start_date teacher_username db = (inl invalid_id, db))
  /\ (forall obj_id,
        ObjectId_of_str announcement_id = Some obj_id ->
        find_one (Field "_id" (VObjectId obj_id)) (announcements db) = None ->
        update_announcement fromisoformat announcement_id message
          expiration_date start_date teacher_username db
        = (inl not_found, db)).
Proof.
  intros Ha. split.
  - now apply update_bad_id.
  - intros obj_id Hid Hnone. now apply (update_not_found _ _ _ _ _ _ _ obj_id).
Qed.

Lemma update_checks_identifier_first_witness :
  authenticated (Some "mrodriguez") Sample.empty_school
  /\ ObjectId_of_str "not-a-valid-id" = None
  /\ update_announcement fromisoformat "not-a-valid-id" "Exam week"
       "next week" None (Some "mrodriguez") Sample.empty_school
     = (inl invalid_id, Sample.empty_school)
  /\ ObjectId_of_str Sample.hex_a = Some Sample.oid_a
  /\ find_one (Field "_id" (VObjectId Sample.oid_a))
       (announcements Sample.empty_school) = None
  /\ update_announcement fromisoformat Sample.hex_a "Exam week" "2030-01-01"
       None (Some "mrodriguez") Sample.empty_school
     = (inl not_found, Sample.empty_school).
Proof.
  assert (Ha : authenticated (Some "mrodriguez") Sample.empty_school)
    by (apply authenticated_known, AuthFacts.sample_teacher_known; reflexivity).
  assert (Hbad : ObjectId_of_str "not-a-valid-id" = None)
    by (vm_compute; reflexivity).
  assert (Hid : ObjectId_of_str Sample.hex_a = Some Sample.oid_a)
    by (vm_compute; reflexivity).
  assert (Hnone : find_one (Field "_id" (VObjectId Sample.oid_a))
                    (announcements Sample.empty_school) = None)
    by reflexivity.
  split; [exact Ha|]. split; [exact Hbad|].
  split; [exact (proj1 (update_checks_identifier_first fromisoformat
                          "not-a-valid-id" "Exam week" "next week" None
                          (Some "mrodriguez") Sample.empty_school Ha) Hbad)|].
  split; [exact Hid|]. split; [exact Hnone|].
  exact (proj2 (update_checks_identifier_first fromisoformat Sample.hex_a
                  "Exam week" "2030-01-01" None (Some "mrodriguez")
                  Sample.empty_school Ha) Sample.oid_a Hid Hnone).
Defined.

(** X16: on a well-formed store, once a delete has succeeded an update
    of the same identifier is answered 404 "Announcement not found" and
    changes nothing, whatever it carries. *)
Theorem deleted_then_update_not_found
    (fromisoformat : string -> option datetime)
    (announcement_id message expiration_date : string)
    (start_date teacher_username : option string) (db db' : DB)
    (answer : Document) :
  wf (announcements db) = true ->
  delete_announcement announcement_id teacher_username db = (inr answer, db') ->
  update_announcement fromisoformat announcement_id message expiration_date
    start_date teacher_username db' = (inl not_found, db').
Proof.
  intros Hwf H.
  destruct (delete_cases announcement_id teacher_username db)
    as [(e & He & _)|(obj_id & d & Ha & Hid & Hd & Hok)]; [congruence|].
  rewrite Hok in H. injection H as <- <-.
  apply (update_not_found _ _ _ _ _ _ _ obj_id); [exact Ha|exact Hid|].
  cbn [announcements]. apply delete_one_gone.
  unfold wf in Hwf. apply andb_true_iff in Hwf. apply Hwf.
Qed.

Lemma deleted_then_update_not_found_witness :
  wf (announcements Sample.school) = true
  /\ update_announcement fromisoformat Sample.hex_a "Library reopens"
       "2030-01-01" None (Some "mrodriguez")
       {| announcements :=
            (delete_one (Field "_id" (VObjectId Sample.oid_a))
               (announcements Sample.school)).1;
          teachers := teachers Sample.school |}
     = (inl not_found,
        {| announcements :=
             (delete_one (Field "_id" (VObjectId Sample.oid_a))
                (announcements Sample.school)).1;
           teachers := teachers Sample.school |}).
Proof.
  assert (Hwf : wf (announcements Sample.school) = true)
    by (vm_compute; reflexivity).
  split; [exact Hwf|].
  exact (deleted_then_update_not_found fromisoformat Sample.hex_a
           "Library reopens" "2030-01-01" None (Some "mrodriguez")
           Sample.school _ _ Hwf sample_deleted).
Defined.

End Composition.
